(** * KAP notification mirror: the store, the fetcher and the batch jobs

    A shallow embedding of [kap_reader.py]: the [database] class over the
    KAP_NOTIFICATIONS table and the [reader] class that fetches
    notifications, crawls forward, refreshes a range and attaches summaries.

    Python values are the three kinds the program handles ([None], [int],
    [str]); a dict is an association list in insertion order; the sqlite3
    table is the list of its rows in rowid order (the table declares no
    key, so duplicates can be stored and order is observable).  Exceptions
    and the mutable world (database file, requests sent, log file) are
    threaded by a small state-and-exception monad.

    Left out: what the program prints, the pauses of [time.sleep], the
    clock reading in a log line and the language of the page (always the
    default).  A [str] is a Rocq string, one element per character.
    An int is unbounded, as in Python; the 64 bits of sqlite are checked
    where an int is bound to a placeholder or spliced into a LIMIT. *)

From Stdlib Require Import ZArith List String Ascii Bool Lia.
From Stdlib Require Import DecimalString Permutation Sorted.
Import ListNotations.
Open Scope string_scope.
Open Scope list_scope.
Open Scope Z_scope.

(** ** Python values and dicts *)

Inductive value : Type :=
| VNone
| VInt (n : Z)
| VStr (s : string).

Definition value_eqb (a b : value) : bool :=
  match a, b with
  | VNone, VNone => true
  | VInt x, VInt y => x =? y
  | VStr x, VStr y => String.eqb x y
  | _, _ => false
  end.

(** [str(n)] for an int. *)
Definition str_of_Z (n : Z) : string := NilZero.string_of_int (Z.to_int n).

Definition dict : Type := list (string * value).

(** [d.get(key, default)] *)
Fixpoint dict_get (key : string) (default : value) (d : dict) : value :=
  match d with
  | [] => default
  | (k, v) :: d' => if String.eqb k key then v else dict_get key default d'
  end.

(** [list(d.values())] *)
Definition dict_values (d : dict) : list value := map snd d.

(** ** Exceptions and the monad *)

Inductive exn : Type :=
| IndexError | TypeError | NameError | AttributeError | ValueError
| ZeroDivisionError | StopIteration
| ProgrammingError     (* sqlite3: wrong number of bindings, NUL in a statement *)
| OperationalError     (* sqlite3: the statement does not compile *)
| OverflowError        (* sqlite3: a bound int does not fit 64 bits *)
| IntegrityError       (* sqlite3: datatype mismatch *)
| ServiceError.        (* the summarization call failed or timed out *)

(** Where the model stops: a [while] loop that outlives its fuel, and a
    [str] used as a notification id (sqlite's INTEGER affinity and the
    f-string splicing of the id into SQL text are not modelled for text). *)
Inductive boundary : Type := OutOfFuel | TextId.

Inductive outcome (A : Type) : Type :=
| Ret (a : A)
| Raise (e : exn)
| Beyond (b : boundary).
Arguments Ret {A} a.
Arguments Raise {A} e.
Arguments Beyond {A} b.

Definition M (S A : Type) : Type := S -> outcome A * S.

Definition ret {S A} (a : A) : M S A := fun s => (Ret a, s).
Definition raise {S A} (e : exn) : M S A := fun s => (Raise e, s).
Definition beyond {S A} (b : boundary) : M S A := fun s => (Beyond b, s).

Definition bind {S A B} (m : M S A) (k : A -> M S B) : M S B :=
  fun s =>
    match m s with
    | (Ret a, s') => k a s'
    | (Raise e, s') => (Raise e, s')
    | (Beyond b, s') => (Beyond b, s')
    end.

(** [try: m  except Exception as ex: h ex] (also the bare [except:]). *)
Definition try_except {S A} (m : M S A) (h : exn -> M S A) : M S A :=
  fun s =>
    match m s with
    | (Raise e, s') => h e s'
    | r => r
    end.

(** [try: m  except StopIteration: h]; other exceptions pass through. *)
Definition except_StopIteration {S A} (m : M S A) (h : M S A) : M S A :=
  fun s =>
    match m s with
    | (Raise StopIteration, s') => h s'
    | r => r
    end.

Declare Scope monad_scope.
Delimit Scope monad_scope with monad.
Notation "x <- m ;; k" := (bind m (fun x => k))
  (at level 61, m at next level, right associativity) : monad_scope.
Notation "m ;;; k" := (bind m (fun _ => k))
  (at level 61, right associativity) : monad_scope.
Open Scope monad_scope.

(** [range(start, start + n)] *)
Fixpoint count_from (start : Z) (n : nat) : list Z :=
  match n with
  | O => []
  | S n' => start :: count_from (start + 1) n'
  end.

Definition range (start stop : Z) : list Z :=
  count_from start (Z.to_nat (stop - start)).

(** [enumerate(l)], counting from [i]. *)
Fixpoint enumerate_from {A} (i : Z) (l : list A) : list (Z * A) :=
  match l with
  | [] => []
  | x :: l' => (i, x) :: enumerate_from (i + 1) l'
  end.

(** ** The KAP_NOTIFICATIONS table *)

Inductive column : Type :=
| col_CODE | col_NOTIFICATION_ID | col_PUBLISH_DATE | col_DISCLOSURE_TYPE | col_YEAR | col_PERIOD
| col_SUMMARY_INFO | col_RELATED_COMPANIES | col_EXPLANATIONS | col_EXPLANATION_SUMMARY.

(** One stored row.  NOTIFICATION_ID is declared INT and holds an integer
    or NULL; the other cells hold NULL, an integer or a text. *)
Record row : Type := mkrow {
  CODE : value;
  NOTIFICATION_ID : option Z;
  PUBLISH_DATE : value;
  DISCLOSURE_TYPE : value;
  YEAR : value;
  PERIOD : value;
  SUMMARY_INFO : value;
  RELATED_COMPANIES : value;
  EXPLANATIONS : value;
  EXPLANATION_SUMMARY : value
}.

Definition table : Type := list row.

(** Column affinity as the CREATE TABLE statement declares it:
    [varchar(8)] and [TEXT] give TEXT affinity (an integer is stored as
    its decimal text), [BLOB] and the untyped RELATED_COMPANIES store the
    bound value as it is. *)
Definition text_affinity (v : value) : value :=
  match v with
  | VInt n => VStr (str_of_Z n)
  | _ => v
  end.

(** sqlite3 binds a Python int as a signed 64-bit integer and raises
    [OverflowError] for an int that does not fit.  The same integers are
    the ones an INT cell of the file holds and the ones sqlite reads an
    integer numeral of a statement as. *)
Definition int64 (n : Z) : bool :=
  (-9223372036854775808 <=? n) && (n <=? 9223372036854775807).

(** Whether sqlite3 binds the value to a placeholder. *)
Definition binds (v : value) : bool :=
  match v with
  | VInt n => int64 n
  | _ => true
  end.

(** A value bound to the INT column: an int or NULL is stored as given;
    a text is outside the model. *)
Definition bind_id (v : value) : option (option Z) :=
  match v with
  | VNone => Some None
  | VInt n => Some (Some n)
  | VStr _ => None
  end.

(** SQL [=] on the id column: NULL equals nothing. *)
Definition sql_eq (a b : option Z) : bool :=
  match a, b with
  | Some x, Some y => x =? y
  | _, _ => false
  end.

Definition is_null (v : value) : bool :=
  match v with VNone => true | _ => false end.

(** [SET column = v] on one row. *)
Definition set_column (c : column) (v : value) (r : row) : option row :=
  match c with
  | col_CODE =>
      Some (mkrow (text_affinity v) (NOTIFICATION_ID r) (PUBLISH_DATE r)
              (DISCLOSURE_TYPE r) (YEAR r) (PERIOD r) (SUMMARY_INFO r)
              (RELATED_COMPANIES r) (EXPLANATIONS r) (EXPLANATION_SUMMARY r))
  | col_NOTIFICATION_ID =>
      match bind_id v with
      | Some i =>
          Some (mkrow (CODE r) i (PUBLISH_DATE r)
                  (DISCLOSURE_TYPE r) (YEAR r) (PERIOD r) (SUMMARY_INFO r)
                  (RELATED_COMPANIES r) (EXPLANATIONS r)
                  (EXPLANATION_SUMMARY r))
      | None => None
      end
  | col_PUBLISH_DATE =>
      Some (mkrow (CODE r) (NOTIFICATION_ID r) (text_affinity v)
              (DISCLOSURE_TYPE r) (YEAR r) (PERIOD r) (SUMMARY_INFO r)
              (RELATED_COMPANIES r) (EXPLANATIONS r) (EXPLANATION_SUMMARY r))
  | col_DISCLOSURE_TYPE =>
      Some (mkrow (CODE r) (NOTIFICATION_ID r) (PUBLISH_DATE r)
              (text_affinity v) (YEAR r) (PERIOD r) (SUMMARY_INFO r)
              (RELATED_COMPANIES r) (EXPLANATIONS r) (EXPLANATION_SUMMARY r))
  | col_YEAR =>
      Some (mkrow (CODE r) (NOTIFICATION_ID r) (PUBLISH_DATE r)
              (DISCLOSURE_TYPE r) (text_affinity v) (PERIOD r) (SUMMARY_INFO r)
              (RELATED_COMPANIES r) (EXPLANATIONS r) (EXPLANATION_SUMMARY r))
  | col_PERIOD =>
      Some (mkrow (CODE r) (NOTIFICATION_ID r) (PUBLISH_DATE r)
              (DISCLOSURE_TYPE r) (YEAR r) (text_affinity v) (SUMMARY_INFO r)
              (RELATED_COMPANIES r) (EXPLANATIONS r) (EXPLANATION_SUMMARY r))
  | col_SUMMARY_INFO =>
      Some (mkrow (CODE r) (NOTIFICATION_ID r) (PUBLISH_DATE r)
              (DISCLOSURE_TYPE r) (YEAR r) (PERIOD r) (text_affinity v)
              (RELATED_COMPANIES r) (EXPLANATIONS r) (EXPLANATION_SUMMARY r))
  | col_RELATED_COMPANIES =>
      Some (mkrow (CODE r) (NOTIFICATION_ID r) (PUBLISH_DATE r)
              (DISCLOSURE_TYPE r) (YEAR r) (PERIOD r) (SUMMARY_INFO r)
              v (EXPLANATIONS r) (EXPLANATION_SUMMARY r))
  | col_EXPLANATIONS =>
      Some (mkrow (CODE r) (NOTIFICATION_ID r) (PUBLISH_DATE r)
              (DISCLOSURE_TYPE r) (YEAR r) (PERIOD r) (SUMMARY_INFO r)
              (RELATED_COMPANIES r) v (EXPLANATION_SUMMARY r))
  | col_EXPLANATION_SUMMARY =>
      Some (mkrow (CODE r) (NOTIFICATION_ID r) (PUBLISH_DATE r)
              (DISCLOSURE_TYPE r) (YEAR r) (PERIOD r) (SUMMARY_INFO r)
              (RELATED_COMPANIES r) (EXPLANATIONS r) v)
  end.

(** The cell of a row under a column, as a Python value. *)
Definition cell (c : column) (r : row) : value :=
  match c with
  | col_CODE => CODE r
  | col_NOTIFICATION_ID =>
      match NOTIFICATION_ID r with Some n => VInt n | None => VNone end
  | col_PUBLISH_DATE => PUBLISH_DATE r
  | col_DISCLOSURE_TYPE => DISCLOSURE_TYPE r
  | col_YEAR => YEAR r
  | col_PERIOD => PERIOD r
  | col_SUMMARY_INFO => SUMMARY_INFO r
  | col_RELATED_COMPANIES => RELATED_COMPANIES r
  | col_EXPLANATIONS => EXPLANATIONS r
  | col_EXPLANATION_SUMMARY => EXPLANATION_SUMMARY r
  end.

(** The non-NULL ids of the table, in row order. *)
Fixpoint ids (t : table) : list Z :=
  match t with
  | [] => []
  | r :: t' =>
      match NOTIFICATION_ID r with
      | Some n => n :: ids t'
      | None => ids t'
      end
  end.

(** SQL [min] and [max] of a column of integers: NULL on no value. *)
Definition sql_min (l : list Z) : option Z :=
  match l with
  | [] => None
  | x :: l' => Some (fold_left Z.min l' x)
  end.

Definition sql_max (l : list Z) : option Z :=
  match l with
  | [] => None
  | x :: l' => Some (fold_left Z.max l' x)
  end.

(** [... ORDER BY NOTIFICATION_ID desc]: NULL sorts below every integer;
    rows of equal id keep their table order. *)
Definition id_gtb (a b : option Z) : bool :=
  match a, b with
  | Some x, Some y => y <? x
  | Some _, None => true
  | None, _ => false
  end.

Fixpoint insert_desc (r : row) (l : list row) : list row :=
  match l with
  | [] => [r]
  | h :: l' =>
      if id_gtb (NOTIFICATION_ID h) (NOTIFICATION_ID r)
      then h :: insert_desc r l'
      else r :: l
  end.

Fixpoint order_by_id_desc (l : list row) : list row :=
  match l with
  | [] => []
  | r :: l' => insert_desc r (order_by_id_desc l')
  end.

(** [... LIMIT n], the int [n] spliced into the statement text: a
    negative limit is no limit.  A numeral outside the signed 64-bit
    range is read as a real, which sqlite refuses as a limit (datatype
    mismatch) before it reads a row. *)
Definition sql_limit {A} (n : Z) (l : list A) : outcome (list A) :=
  if int64 n
  then Ret (if n <? 0 then l else firstn (Z.to_nat n) l)
  else Raise IntegrityError.

(** ** The KAP_COMPANIES table *)

Module KAP_COMPANIES.

(** One stored row.  Every column is declared [varchar] or [TEXT], so a
    cell holds a text or NULL. *)
Record row : Type := mkrow {
  CODE : option string;
  COMPANY_NAME : option string;
  PROVINCE : option string;
  COMPANY_URL : option string;
  TAX_NO : option string;
  REG_NO : option string;
  SCOPE : option string;
  EMAIL : option string;
  WEBADDRESS : option string;
  ADDRESS : option string;
  SECTOR : option string
}.

Definition table : Type := list row.

End KAP_COMPANIES.

(** A value bound to a column of TEXT affinity: an integer is stored as
    its decimal text. *)
Definition as_text (v : value) : option string :=
  match v with
  | VNone => None
  | VInt n => Some (str_of_Z n)
  | VStr s => Some s
  end.

(** [f'{v}']: the text an f-string puts for a value. *)
Definition py_str (v : value) : string :=
  match v with
  | VNone => "None"
  | VInt n => str_of_Z n
  | VStr s => s
  end.

(** [ch in s] for a character. *)
Fixpoint has_char (ch : ascii) (s : string) : bool :=
  match s with
  | EmptyString => false
  | String c s' => Ascii.eqb c ch || has_char ch s'
  end.

(** [s.split(sep)[-1]]: the text after the last [sep], all of [s] when it
    holds none. *)
Fixpoint last_after (sep : ascii) (s : string) : string :=
  match s with
  | EmptyString => EmptyString
  | String c s' =>
      if has_char sep s' then last_after sep s'
      else if Ascii.eqb c sep then s'
      else s
  end.

(** [WHERE CODE='text']: the rows whose code is that text. *)
Definition code_is (text : string) (r : KAP_COMPANIES.row) : bool :=
  match KAP_COMPANIES.CODE r with
  | Some c => String.eqb c text
  | None => false
  end.

(** ** class database *)

Module database.

(** What [save_notification] and [update_notification] return:
    [(1, 'ok')] or [(0, str(ex))]. *)
Inductive reply : Type :=
| ok                    (* 1, 'ok' *)
| failed (ex : exn).     (* 0, str(ex) *)

(** [select * from KAP_NOTIFICATIONS where NOTIFICATION_ID={notification_id}]
    through [read_data]: the rows under ['data'].  The id is spliced into
    the statement text, so Python's [None] reads as a column name that
    does not exist. *)
Definition get_notification (notification_id : option Z)
  : M table (list row) :=
  match notification_id with
  | None => raise OperationalError
  | Some n =>
      fun t => (Ret (filter (fun r => sql_eq (NOTIFICATION_ID r) (Some n)) t), t)
  end.

(** What [get_last_notification] returns: the fetched rows, or [-1]. *)
Inductive last_notification : Type :=
| minus_one
| fetched (rows : list (option Z * value)).

Definition is_none_none (ret : list (option Z * value)) : bool :=
  match ret with
  | [(None, VNone)] => true
  | _ => false
  end.

(** [select NOTIFICATION_ID, PUBLISH_DATE from KAP_NOTIFICATIONS where
    NOTIFICATION_ID=(select max(NOTIFICATION_ID) ...)], then
    [if ret==[(None,None)]: ret=-1]. *)
Definition get_last_notification (t : table) : last_notification :=
  let max_id := sql_max (ids t) in
  let ret :=
    map (fun r => (NOTIFICATION_ID r, PUBLISH_DATE r))
        (filter (fun r => sql_eq (NOTIFICATION_ID r) max_id) t) in
  if is_none_none ret then minus_one else fetched ret.

(** [DELETE FROM KAP_NOTIFICATIONS WHERE NOTIFICATION_ID={notification_id}]
    on a connection of its own, committed before it returns.  The id is
    spliced into the statement text: [None] does not compile. *)
Definition delete_notification (notification_id : value) : M table unit :=
  match notification_id with
  | VInt n =>
      fun t =>
        (Ret tt, filter (fun r => negb (sql_eq (NOTIFICATION_ID r) (Some n))) t)
  | VNone => raise OperationalError
  | VStr _ => beyond TextId
  end.

(** [INSERT INTO KAP_NOTIFICATIONS (CODE, ..., EXPLANATION_SUMMARY)
    VALUES (?,?,?,?,?,?,?,?,?,?)] with a list of bindings, and its commit.
    sqlite3 first refuses a list that does not bind exactly the ten
    placeholders, then an int among the ten that does not fit 64 bits. *)
Definition insert_notification (bindings : list value) : M table unit :=
  match bindings with
  | [c; i; pd; dt; y; p; su; rel; ex; es] =>
      if forallb binds bindings
      then
        match bind_id i with
        | Some nid =>
            fun t =>
              (Ret tt,
               t ++ [mkrow (text_affinity c) nid (text_affinity pd)
                       (text_affinity dt) (text_affinity y) (text_affinity p)
                       (text_affinity su) rel ex es])
        | None => beyond TextId
        end
      else raise OverflowError
  | _ => raise ProgrammingError
  end.

(** [save_notification]: the delete runs and commits first, on the
    connection [delete_notification] opens; the insert follows on the
    connection opened at the start; any exception becomes [(0, str(ex))]. *)
Definition save_notification (notification : dict) : M table reply :=
  try_except
    (delete_notification (dict_get "notification_id" (VInt (-1)) notification) ;;;
     insert_notification (dict_values notification) ;;;
     ret ok)
    (fun ex => ret (failed ex)).

(** The states of the database file that [save_notification] commits, in
    order: after [delete_notification]'s [conn.commit()], and after the
    [conn.commit()] that follows the insert when the insert succeeds. *)
Definition save_notification_commits (notification : dict) (t : table)
  : list table :=
  match delete_notification
          (dict_get "notification_id" (VInt (-1)) notification) t with
  | (Ret _, t1) =>
      match insert_notification (dict_values notification) t1 with
      | (Ret _, t2) => [t1; t2]
      | _ => [t1]
      end
  | _ => []
  end.

(** The recursive table [c(x)] of [get_missing_notifications]:
    [VALUES(1) UNION ALL SELECT x+1 FROM c WHERE x<1000000]. *)
Definition c_last : Z := 1000000.
Definition c : list Z := count_from 1 (Z.to_nat c_last).

(** [get_missing_notifications]: the CID column of the result.
    [a] is [x+min_id] for the [x] of [c] with [x < max_id-min_id]; the left
    join keeps the CID that no stored row carries. *)
Definition get_missing_notifications (t : table) : list Z :=
  let a :=
    match sql_min (ids t), sql_max (ids t) with
    | Some min_id, Some max_id =>
        map (fun x => x + min_id) (filter (fun x => x <? max_id - min_id) c)
    | _, _ => []
    end in
  filter (fun CID => negb (existsb (fun b => sql_eq (Some CID) (NOTIFICATION_ID b)) t)) a.

(** The id bound to [where NOTIFICATION_ID=?]: [None] binds as NULL, an
    int binds when it fits 64 bits.  The INT cells of the file hold
    64-bit integers only, so an id read from a row always binds; the
    cells of the model are not bounded, and an id that a row of the
    table carries is taken to bind as well. *)
Definition binds_id (notification_id : option Z) (t : table) : bool :=
  match notification_id with
  | None => true
  | Some n =>
      int64 n || existsb (fun r => sql_eq (NOTIFICATION_ID r) (Some n)) t
  end.

(** [update KAP_NOTIFICATIONS set {column_name}=? where NOTIFICATION_ID=?]
    with the bindings [(value, notification_id)].  The column is given as
    a column of the table (the program passes ['EXPLANATION_SUMMARY']);
    the id is a Python int or [None].  sqlite3 refuses a value or an id
    that is an int outside 64 bits before the statement runs. *)
Definition update_rows (notification_id : option Z) (column_name : column)
  (v : value) : M table unit :=
  fun t =>
    if binds v && binds_id notification_id t
    then
      match column_name, bind_id v with
      | col_NOTIFICATION_ID, None => (Beyond TextId, t)
      | _, _ =>
          (Ret tt,
           map (fun r =>
                  if sql_eq (NOTIFICATION_ID r) notification_id
                  then match set_column column_name v r with
                       | Some r' => r'
                       | None => r
                       end
                  else r) t)
      end
    else (Raise OverflowError, t).

Definition update_notification (notification_id : option Z)
  (column_name : column) (v : value) : M table reply :=
  try_except
    (update_rows notification_id column_name v ;;; ret ok)
    (fun ex => ret (failed ex)).

(** [select min(NOTIFICATION_ID), min(PUBLISH_DATE), count( * ) from
    KAP_NOTIFICATIONS], as [_refresh_all_notifications] reads it: the
    minimum id and the row count (the minimum date is only printed). *)
Definition min_id_and_count (t : table) : option Z * Z :=
  (sql_min (ids t), Z.of_nat (List.length t)).

(** [select * from KAP_NOTIFICATIONS where EXPLANATION_SUMMARY is null
    order by NOTIFICATION_ID desc LIMIT {top_n}] through [read_data]: the
    rows under ['data'], or the exception of the statement. *)
Definition missing_summaries (top_n : Z) (t : table) : outcome (list row) :=
  sql_limit top_n
    (order_by_id_desc (filter (fun r => is_null (EXPLANATION_SUMMARY r)) t)).

(** [select * from KAP_NOTIFICATIONS where EXPLANATION_SUMMARY is not null] *)
Definition with_summaries (t : table) : list row :=
  filter (fun r => negb (is_null (EXPLANATION_SUMMARY r))) t.

(** What [save_company] returns: [(1, 'ok, company saved')] or
    [(0, str(ex))]. *)
Inductive company_reply : Type :=
| company_saved
| company_failed (ex : exn).

(** [select * from KAP_COMPANIES WHERE CODE='{company_id}'], then
    [ret[0] if len(ret)>0 else []]: the first row of that code, if any.
    The id is spliced between quotes into the statement text.  sqlite3
    refuses a statement text that holds a NUL character; a text with a
    quote in it would end the literal early, and the model stops there
    as it does for a text id. *)
Definition get_company (company_id : value)
  : M KAP_COMPANIES.table (option KAP_COMPANIES.row) :=
  if has_char "000" (py_str company_id) then raise ProgrammingError
  else if has_char "'" (py_str company_id) then beyond TextId
  else fun t => (Ret (hd_error (filter (code_is (py_str company_id)) t)), t).

(** [DELETE FROM KAP_COMPANIES WHERE CODE='{company_id}'], committed on a
    connection of its own; the id is spliced as in [get_company]. *)
Definition delete_company (company_id : value) : M KAP_COMPANIES.table unit :=
  if has_char "000" (py_str company_id) then raise ProgrammingError
  else if has_char "'" (py_str company_id) then beyond TextId
  else
    fun t =>
      (Ret tt, filter (fun r => negb (code_is (py_str company_id) r)) t).

(** [INSERT INTO KAP_COMPANIES (CODE, ..., SECTOR)
    VALUES (?,?,?,?,?,?,?,?,?,?,?)] with the list as bindings: sqlite3
    first refuses a list that does not bind exactly the eleven
    placeholders, then an int among the eleven that does not fit 64
    bits. *)
Definition insert_company (bindings : list value)
  : M KAP_COMPANIES.table unit :=
  match bindings with
  | [co; na; pr; ur; ta; re; sc; em; we; ad; se] =>
      if forallb binds bindings
      then
        fun t =>
          (Ret tt,
           t ++ [KAP_COMPANIES.mkrow (as_text co) (as_text na) (as_text pr)
                   (as_text ur) (as_text ta) (as_text re) (as_text sc)
                   (as_text em) (as_text we) (as_text ad) (as_text se)])
      else raise OverflowError
  | _ => raise ProgrammingError
  end.

(** [save_company]: [company[0]] names the rows to delete first. *)
Definition save_company (company : list value)
  : M KAP_COMPANIES.table company_reply :=
  try_except
    (match company with
     | [] => raise IndexError                      (* company[0] *)
     | code :: _ =>
         delete_company code ;;;
         insert_company company ;;;
         ret company_saved
     end)
    (fun ex => ret (company_failed ex)).

End database.

(** ** The site, the summarization service and the world *)

(** The eight texts [get_notification] reads off a notification page. *)
Record page_fields : Type := mkfields {
  f_code : string;
  f_publish_date : string;
  f_disclosure_tpye : string;
  f_year : string;
  f_period : string;
  f_summary : string;
  f_related : string;
  f_explanations : string
}.

(** A parsed page: one with the blocks the extraction indexes into, or one
    where some [find_all(...)[0]] finds nothing. *)
Inductive soup : Type :=
| notification_page (f : page_fields)
| other_page.

(** What [requests.get] does: raise, or answer with a status code. *)
Inductive response : Type :=
| request_exception
| http (status_code : Z) (content : soup).

(** What lies outside the program.  [site id k] is the answer to the
    request for [id] that follows [k] earlier requests for it;
    [chat_completion] is the summarization call under its timeout, [None]
    when it raises; [int_accepts] tells which texts Python's [int()]
    parses; [kr_bound] tells whether the module's globals bind the name
    [kr] to a reader (kap_reader.py itself binds no such name). *)
Record env : Type := mkenv {
  site : Z -> nat -> response;
  chat_completion : string -> option (string * Z);
  int_accepts : string -> bool;
  kr_bound : bool
}.

(** One line of the refresh log, [f'{i};{j};{time.time():.0f};'] followed
    by the marks; the clock reading is left out. *)
Record log_line : Type := mklog {
  log_i : Z;
  log_j : Z;
  log_marks : string
}.

Record world : Type := mkworld {
  db : table;                 (* kap.db *)
  requests : list Z;          (* ids requested from the site, oldest first *)
  log_txt : list log_line     (* log.txt *)
}.

(** Run a [database] method on the world's database. *)
Definition on_db {A} (m : M table A) : M world A :=
  fun w =>
    let (r, t) := m (db w) in
    (r, mkworld t (requests w) (log_txt w)).

(** What a [reader] method hands back. *)
Inductive pyobj : Type :=
| PyNone
| PySoup (s : soup)
| PyDict (d : dict).

Definition count_requests (id : Z) (l : list Z) : nat :=
  List.length (filter (Z.eqb id) l).

(** ** class reader *)

Module reader.

Definition notification_initial_id : Z := 1083300.
Definition API_MAX_CONTEXT_LENGTH : nat := 4097.

(** [requests.get(f"https://www.kap.org.tr/{lang}/Bildirim/{id}", ...)] *)
Definition requests_get (e : env) (id : Z) : M world response :=
  fun w =>
    (Ret (site e id (count_requests id (requests w))),
     mkworld (db w) (requests w ++ [id]) (log_txt w)).

(** The dict [get_notification] builds under ["return values"]. *)
Definition notification_dict (f : page_fields) (id : Z) : dict :=
  [("code", VStr (f_code f));
   ("notification_id", VInt id);
   ("publish_date", VStr (f_publish_date f));
   ("disclosure_tpye", VStr (f_disclosure_tpye f));
   ("year", VStr (f_year f));
   ("period", VStr (f_period f));
   ("summary", VStr (f_summary f));
   ("related", VStr (f_related f));
   ("explanations", VStr (f_explanations f))].

(** The two error dicts. *)
Definition request_error : dict := [("error", VStr "request error")].
Definition not_found : dict := [("error", VStr "not found")].

Definition get_notification (e : env) (id : Z) (return_soup : bool)
  : M world pyobj :=
  req <- requests_get e id ;;
  match req with
  | request_exception => ret (PyDict request_error)
  | http status_code content =>
      if negb (status_code =? 200)
      then ret (PyDict not_found)
      else if return_soup then ret (PySoup content)
      else
        match content with
        | other_page => raise IndexError
        | notification_page f =>
            let ret_ := notification_dict f id in
            on_db (database.save_notification ret_) ;;;
            ret (PyDict ret_)
        end
  end.

(** How [get_notifications] ends: ['final page reached'] or
    ['limit parameter (...) reached']. *)
Inductive crawl_end : Type := final_page_reached | limit_parameter_reached.

(** The body of the [for] loop, over the ids of the range. *)
Fixpoint crawl (e : env) (l : list Z) : M world unit :=
  match l with
  | [] => ret tt
  | id :: l' =>
      notif <- get_notification e id false ;;
      match notif with
      | PyNone => raise StopIteration
      | _ => crawl e l'
      end
  end.

Definition get_notifications (e : env) (limit : Z) : M world crawl_end :=
  fun w =>
    match database.get_last_notification (db w) with
    | database.minus_one => (Raise TypeError, w)       (* -1[0] *)
    | database.fetched [] => (Raise IndexError, w)      (* [][0] *)
    | database.fetched ((last_notif_id, last_notif_date) :: _) =>
        let last_notif_id :=
          match last_notif_id with
          | Some (-1) => Some notification_initial_id
          | _ => last_notif_id
          end in
        match last_notif_id with
        | None => (Raise TypeError, w)                  (* None + 1 *)
        | Some last_notif_id =>
            except_StopIteration
              (crawl e (range (last_notif_id + 1) (last_notif_id + 1 + limit)) ;;;
               ret limit_parameter_reached)
              (ret final_page_reached) w
        end
    end.

(** [get_missing_notifications]: fetch every id the database reports
    missing. *)
Fixpoint fetch_each (e : env) (l : list Z) : M world unit :=
  match l with
  | [] => ret tt
  | i :: l' => get_notification e i false ;;; fetch_each e l'
  end.

Definition get_missing_notifications (e : env) : M world unit :=
  fun w => fetch_each e (database.get_missing_notifications (db w)) w.

(** [ret.get('error','') == 'request error'] *)
Definition is_request_error (r : pyobj) : M world bool :=
  match r with
  | PyDict d => ret (value_eqb (dict_get "error" (VStr "") d) (VStr "request error"))
  | PySoup _ => ret false
  | PyNone => raise AttributeError
  end.

(** [kr.get_notification(j)]: [kr] is looked up in the module's globals. *)
Definition kr_get_notification (e : env) (j : Z) : M world pyobj :=
  if kr_bound e then get_notification e j false else raise NameError.

(** The [while] loop of [_refresh_all_notifications], with the marks of
    the log line built so far. *)
Fixpoint retry (e : env) (fuel : nat) (j : Z) (r : pyobj) (marks : string)
  : M world string :=
  again <- is_request_error r ;;
  if again then
    match fuel with
    | O => beyond OutOfFuel
    | S fuel' =>
        let marks := (marks ++ "~")%string in
        r' <- kr_get_notification e j ;;
        retry e fuel' j r' marks
    end
  else ret marks.

(** [with open('log.txt','a') as f: f.write(...)] *)
Definition append_log (log : list log_line) : M world unit :=
  fun w => (Ret tt, mkworld (db w) (requests w) (log_txt w ++ log)).

(** The [for] loop of [_refresh_all_notifications]; [log] is the list the
    loop fills and empties, handed back at the end. *)
Fixpoint refresh (e : env) (fuel : nat) (l : list (Z * Z)) (log : list log_line)
  : M world (list log_line) :=
  match l with
  | [] => ret log
  | (i, j) :: l' =>
      r <- get_notification e j false ;;
      first <- is_request_error r ;;
      marks <- (if first
                then m <- retry e fuel j r "" ;; ret (m ++ ";")%string
                else ret ".;") ;;
      let log := log ++ [mklog i j marks] in
      log <- (if (0 <? i) && (i mod 50 =? 0)
              then append_log log ;;; ret []
              else ret log) ;;
      refresh e fuel l' log
  end.

(** The operand of a Python [or] that decides it: [None] and [0] are
    false. *)
Definition truthy (a : option Z) : option Z :=
  match a with
  | Some 0 => None
  | _ => a
  end.

Definition _refresh_all_notifications (e : env) (fuel : nat)
  (start stop : option Z) : M world (list log_line) :=
  fun w =>
    let (min_id, count) := database.min_id_and_count (db w) in
    (* start = start or kdf['data'][0][0] *)
    let start :=
      match truthy start with
      | Some s => Some s
      | None => min_id
      end in
    (* stop = stop or kdf['data'][0][0]+kdf['data'][0][2]+1 *)
    (stop <- match truthy stop with
             | Some s => ret s
             | None =>
                 match min_id with
                 | Some m => ret (m + count + 1)
                 | None => raise TypeError        (* None + count *)
                 end
             end ;;
     match start with
     | Some start => refresh e fuel (enumerate_from 0 (range start stop)) []
     | None => raise TypeError                    (* range(None, stop) *)
     end) w.

(** [summarize_explanation]: the explanation is sliced to the context
    length while the call's arguments are built, then the service is
    called. *)
Definition summarize_explanation (e : env) (explanation : value)
  : M world (string * Z) :=
  match explanation with
  | VStr s =>
      match chat_completion e (substring 0 API_MAX_CONTEXT_LENGTH s) with
      | Some r => ret r
      | None => raise ServiceError
      end
  | _ => raise TypeError                          (* None[:4097] *)
  end.

(** What [save_notification_summary] returns: what
    [db.update_notification] returned, or [(None, 0)]. *)
Inductive summary_ret : Type :=
| from_update (r : database.reply)
| none_zero.

Definition save_notification_summary (e : env) (notification_id : option Z)
  : M world summary_ret :=
  notification <- on_db (database.get_notification notification_id) ;;
  match notification with
  | [] => raise IndexError                        (* ['data'][0] *)
  | first :: _ =>
      let explanation := EXPLANATIONS first in    (* [-2] *)
      try_except
        (st <- summarize_explanation e explanation ;;
         let (explanation_summary, total_tokens) := st in
         r <- on_db (database.update_notification notification_id
                       col_EXPLANATION_SUMMARY
                       (VStr (explanation_summary ++ ";"
                                ++ str_of_Z total_tokens)%string)) ;;
         ret (from_update r))
        (fun _ => ret none_zero)
  end.

(** [ret[0]==1] *)
Definition first_is_1 (r : summary_ret) : bool :=
  match r with
  | from_update database.ok => true
  | _ => false
  end.

(** [s.split(';')[-1]]: the text after the last semicolon. *)
Fixpoint last_piece_from (piece s : string) : string :=
  match s with
  | EmptyString => piece
  | String ch s' =>
      if Ascii.eqb ch ";" then last_piece_from EmptyString s'
      else last_piece_from (piece ++ String ch EmptyString)%string s'
  end.

Definition last_piece (s : string) : string := last_piece_from EmptyString s.

(** [[int(r[-1].split(';')[-1]) for r in ret[0]['data']]]: the first row
    whose summary does not split or parse raises. *)
Fixpoint read_tokens (e : env) (l : list row) : M world unit :=
  match l with
  | [] => ret tt
  | r :: l' =>
      match EXPLANATION_SUMMARY r with
      | VStr s =>
          if int_accepts e (last_piece s) then read_tokens e l'
          else raise ValueError
      | _ => raise AttributeError
      end
  end.

(** The token statistics printed every hundredth record:
    [sum(tokens)/len(tokens)] divides by the number of rows read. *)
Definition token_stats (e : env) : M world unit :=
  fun w =>
    let ret_ := database.with_summaries (db w) in
    (read_tokens e ret_ ;;;
     match ret_ with
     | [] => raise ZeroDivisionError
     | _ => ret tt
     end) w.

(** The [for] loop of [save_notification_summaries]; the marks it prints
    (['.'] as [true], ['-'] as [false]) are handed back. *)
Fixpoint summarize_each (e : env) (l : list (Z * option Z))
  : M world (list bool) :=
  match l with
  | [] => ret []
  | (i, notification_id) :: l' =>
      r <- save_notification_summary e notification_id ;;
      (if (i mod 100 =? 0) && (0 <? i) then token_stats e else ret tt) ;;;
      marks <- summarize_each e l' ;;
      ret (first_is_1 r :: marks)
  end.

Definition save_notification_summaries (e : env) (top_n : Z)
  : M world (list bool) :=
  fun w =>
    match database.missing_summaries top_n (db w) with
    | Ret df =>
        let notification_ids := map NOTIFICATION_ID df in
        summarize_each e (enumerate_from 0 notification_ids) w
    | Raise ex => (Raise ex, w)
    | Beyond b => (Beyond b, w)
    end.

(** The texts [read_company_detail] reads off a company page; the
    sector is read under a [try] and may be missing. *)
Record company_fields : Type := mkcompany {
  c_name : string;
  c_code : string;
  c_tax_no : string;
  c_reg_no : string;
  c_scope : string;
  c_email : string;
  c_web : string;
  c_address : string;
  c_sector : option string
}.

(** A parsed company page: one with the blocks the method reads, or one
    on which reading them raises. *)
Inductive company_soup : Type :=
| company_page (f : company_fields)
| unreadable_page (ex : exn).

(** The company pages of the site: for a url, the page that
    [requests.get(url.replace('ozet','genel'), ...)] brings, or the
    exception it raises (the status code is not looked at). *)
Definition company_site : Type := string -> outcome company_soup.

(** The list [read_company_detail] builds under ["aggregate all"]. *)
Definition company_list (f : company_fields) (url : string) : list value :=
  let province := last_after " " (last_after "/" (c_address f)) in
  let sector := match c_sector f with Some s => s | None => EmptyString end in
  [VStr (c_code f); VStr (c_name f); VStr province; VStr url;
   VStr (c_tax_no f); VStr (c_reg_no f); VStr (c_scope f); VStr (c_email f);
   VStr (c_web f); VStr (c_address f); VStr sector].

Definition read_company_detail (pages : company_site) (url : string)
  : M KAP_COMPANIES.table (list value) :=
  match pages url with
  | Raise ex => raise ex
  | Beyond b => beyond b
  | Ret (unreadable_page ex) => raise ex
  | Ret (company_page f) =>
      let company := company_list f url in
      database.delete_company (VStr (c_code f)) ;;;
      database.save_company company ;;;
      ret company
  end.

(** The [for] loop of [read_companies]: [c[-1]] is the url of a row. *)
Fixpoint read_each_company (pages : company_site) (compsd : list (list string))
  : M KAP_COMPANIES.table unit :=
  match compsd with
  | [] => ret tt
  | c :: compsd' =>
      match c with
      | [] => raise IndexError                       (* c[-1] *)
      | cell :: cells =>
          read_company_detail pages (last cells cell) ;;;
          read_each_company pages compsd'
      end
  end.

(** [read_companies]: [companies_list] is what [read_companies_list]
    returns or raises; the message printed at the end names the loop
    index, which is unbound after a loop over no company. *)
Definition read_companies (pages : company_site)
  (companies_list : outcome (list (list string)))
  (comps : option (list (list string)))
  : M KAP_COMPANIES.table (list (list string)) :=
  compsd <- match comps with
            | None => fun t => (companies_list, t)
            | Some comps => ret comps
            end ;;
  read_each_company pages compsd ;;;
  match compsd with
  | [] => raise NameError
  | _ => ret compsd
  end.

End reader.

(** ** Vocabulary of the statements *)

(** The table without the rows of id [n]: what
    [DELETE ... WHERE NOTIFICATION_ID=n] leaves. *)
Definition without (n : Z) (t : table) : table :=
  filter (fun r => negb (sql_eq (NOTIFICATION_ID r) (Some n))) t.

(** What sqlite stores when [v] is bound to a column: the column's
    affinity applied to it, or nothing where the model stops. *)
Definition stored_as (c : column) (v : value) : option value :=
  match c with
  | col_NOTIFICATION_ID =>
      match v with
      | VStr _ => None
      | _ => Some v
      end
  | col_RELATED_COMPANIES | col_EXPLANATIONS | col_EXPLANATION_SUMMARY => Some v
  | _ => Some (text_affinity v)
  end.

(** Whether some row carries the id [n]. *)
Definition stored (n : Z) (t : table) : bool :=
  existsb (fun r => sql_eq (NOTIFICATION_ID r) (Some n)) t.

(** How many rows carry the id [n]. *)
Definition copies (n : Z) (t : table) : nat :=
  List.length (filter (fun r => sql_eq (NOTIFICATION_ID r) (Some n)) t).

(** The rows still without a summary. *)
Definition candidates (t : table) : table :=
  filter (fun r => is_null (EXPLANATION_SUMMARY r)) t.

(** The value [save_notification_summary] writes for a row: the summary
    the service gives for the start of its explanation, a semicolon, the
    token count. *)
Definition summary_written (e : env) (r : row) : option value :=
  match EXPLANATIONS r with
  | VStr s =>
      match chat_completion e (substring 0 reader.API_MAX_CONTEXT_LENGTH s) with
      | Some (summary, tokens) =>
          Some (VStr (summary ++ ";" ++ str_of_Z tokens)%string)
      | None => None
      end
  | _ => None
  end.

Definition with_summary (v : value) (r : row) : row :=
  mkrow (CODE r) (NOTIFICATION_ID r) (PUBLISH_DATE r) (DISCLOSURE_TYPE r)
    (YEAR r) (PERIOD r) (SUMMARY_INFO r) (RELATED_COMPANIES r)
    (EXPLANATIONS r) v.

(** A row once the ids of [done] have been enriched. *)
Definition enriched_in (e : env) (done : list Z) (r : row) : row :=
  match NOTIFICATION_ID r, summary_written e r with
  | Some n, Some v =>
      if is_null (EXPLANATION_SUMMARY r) && existsb (Z.eqb n) done
      then with_summary v r
      else r
  | _, _ => r
  end.

(** A row once every candidate has been enriched. *)
Definition enriched (e : env) (r : row) : row :=
  match summary_written e r with
  | Some v => if is_null (EXPLANATION_SUMMARY r) then with_summary v r else r
  | None => r
  end.

(** A summary the token statistics can read. *)
Definition readable (e : env) (v : value) : bool :=
  match v with
  | VStr s => int_accepts e (reader.last_piece s)
  | _ => false
  end.

(** The token statistics, read at every hundredth record, cannot raise
    in a batch that starts at index [i] with [n] records over the table
    [t]: the batch ends before index 100, or every summary stored or
    written can be read. *)
Definition statistics_safe (e : env) (t : table) (i : Z) (n : nat) : Prop :=
  i + Z.of_nat n <= 100
  \/ ((forall r, In r t -> is_null (EXPLANATION_SUMMARY r) = false ->
         readable e (EXPLANATION_SUMMARY r) = true)
      /\ (forall text summary tokens,
            chat_completion e text = Some (summary, tokens) ->
            int_accepts e
              (reader.last_piece (summary ++ ";" ++ str_of_Z tokens)%string)
            = true)).

(** The world after one more request for [id]. *)
Definition requested (id : Z) (w : world) : world :=
  mkworld (db w) (requests w ++ [id]) (log_txt w).

(** The row the INSERT of [save_notification] stores for ten bindings
    that sqlite3 binds (every int among them within 64 bits). *)
Definition row_of_bindings (bindings : list value) : option row :=
  match bindings with
  | [c; i; pd; dt; y; p; su; rel; ex; es] =>
      if forallb binds bindings
      then
        match bind_id i with
        | Some nid =>
            Some (mkrow (text_affinity c) nid (text_affinity pd)
                    (text_affinity dt) (text_affinity y) (text_affinity p)
                    (text_affinity su) rel ex es)
        | None => None
        end
      else None
  | _ => None
  end.

(** A notification in the layout [save_notification] documents: ten
    values in column order that sqlite3 binds (every int among them
    within the signed 64-bit range), the int [n] under
    ['notification_id'] and in the id position; [new] is the row it is
    stored as. *)
Definition in_layout (notification : dict) (n : Z) (new : row) : Prop :=
  dict_get "notification_id" (VInt (-1)) notification = VInt n
  /\ row_of_bindings (dict_values notification) = Some new
  /\ NOTIFICATION_ID new = Some n.

(** The rows of id [n], as [database.get_notification] selects them. *)
Definition rows_of (n : Z) (t : table) : list row :=
  filter (fun r => sql_eq (NOTIFICATION_ID r) (Some n)) t.

(** [save_notification] called on each notification of a list in turn. *)
Fixpoint save_each (l : list dict) : M table unit :=
  match l with
  | [] => ret tt
  | notification :: l' =>
      database.save_notification notification ;;; save_each l'
  end.

(** The log line of an id whose first fetch is not a request error. *)
Definition dot_line (p : Z * Z) : log_line := mklog (fst p) (snd p) ".;".


(** How many lines the refresh loop can hold in memory when it reaches
    the index [i]: the lines since the last index that is a multiple of
    50. *)
Definition pending_bound (i : Z) : Z :=
  if i <=? 0 then 0 else (i - 1) mod 50 + 1.

(** [a] is at least as new as [b]: the id of [b] does not sort above the
    id of [a] (NULL sorts lowest). *)
Definition at_least_as_new (a b : row) : Prop :=
  id_gtb (NOTIFICATION_ID b) (NOTIFICATION_ID a) = false.

(** Whether the enrichment has a summary to write for a row. *)
Definition written (e : env) (r : row) : bool :=
  match summary_written e r with
  | Some _ => true
  | None => false
  end.

(** The table after [update_notification] has set the summary [v] on
    the rows of id [n]. *)
Definition summarized (n : Z) (v : value) (t : table) : table :=
  map (fun r => if sql_eq (NOTIFICATION_ID r) (Some n)
                then with_summary v r else r) t.

(** The row the INSERT of [save_company] stores for eleven bindings
    that sqlite3 binds (every int among them within 64 bits). *)
Definition company_row_of (bindings : list value)
  : option KAP_COMPANIES.row :=
  match bindings with
  | [co; na; pr; ur; ta; re; sc; em; we; ad; se] =>
      if forallb binds bindings
      then
        Some (KAP_COMPANIES.mkrow (as_text co) (as_text na) (as_text pr)
                (as_text ur) (as_text ta) (as_text re) (as_text sc)
                (as_text em) (as_text we) (as_text ad) (as_text se))
      else None
  | _ => None
  end.

(** The rows of a company code, as [get_company] selects them. *)
Definition companies_of (code : string) (t : KAP_COMPANIES.table)
  : list KAP_COMPANIES.row :=
  filter (code_is code) t.

(** The company table without the rows of a code. *)
Definition without_company (code : string) (t : KAP_COMPANIES.table)
  : KAP_COMPANIES.table :=
  filter (fun r => negb (code_is code r)) t.

(** [c[-1]] of a row of the company list: its url. *)
Definition url_of (c : list string) : string := last c EmptyString.

(** A code with exactly one row in the company table. *)
Definition stored_once (code : string) (t : KAP_COMPANIES.table) : Prop :=
  exists r, companies_of code t = [r].

(** ** Stubs and stores of the worked cases *)

Definition a_page : soup :=
  notification_page
    (mkfields "AVOD" "01.12.2022 18:05:11" "ODA" "2022" "" "Genel Kurul"
       "[]" "Genel Kurul Toplanti Sonucu").

Definition a_row (n : Z) : row :=
  mkrow (VStr "AVOD") (Some n) (VStr "01.12.2022 18:05:11") (VStr "ODA")
    (VStr "2022") (VStr "") (VStr "Genel Kurul") (VStr "[]")
    (VStr "Genel Kurul Toplanti Sonucu") VNone.

(** The module as the file defines it: no global [kr]; a summarizer that
    answers; [int()] on the decimal texts the program writes. *)
Definition env_of (site : Z -> nat -> response) : env :=
  mkenv site (fun _ => Some ("ozet", 12)) (fun s => String.eqb s "12") false.

(** Found for 101..110, not found from 111 on. *)
Definition site_101_110 (id : Z) (k : nat) : response :=
  if (101 <=? id) && (id <=? 110) then http 200 a_page else http 404 other_page.

(** Found everywhere, but the request for 105 raises. *)
Definition site_error_105 (id : Z) (k : nat) : response :=
  if id =? 105 then request_exception else http 200 a_page.

(** Found everywhere, but the first three requests for 7 raise. *)
Definition site_7_thrice (id : Z) (k : nat) : response :=
  if (id =? 7) && (k <? 3)%nat then request_exception else http 200 a_page.

(** A server error for every id. *)
Definition site_500 (id : Z) (k : nat) : response := http 500 other_page.

(** A notification dict in the layout [save_notification] documents:
    ten entries in column order. *)
Definition a_notification (n : Z) : dict :=
  [("code", VStr "AVOD");
   ("notification_id", VInt n);
   ("publish_date", VStr "01.12.2022 18:05:11");
   ("disclosure_tpye", VStr "ODA");
   ("year", VStr "2022");
   ("period", VStr "");
   ("summary", VStr "Genel Kurul");
   ("related", VStr "[]");
   ("explanations", VStr "Genel Kurul Toplanti Sonucu");
   ("explanation_summary", VNone)].

(** A row that already carries a summary. *)
Definition a_summarized_row (n : Z) : row :=
  with_summary (VStr "Toplanti yapildi;12") (a_row n).

(** Two candidates and a summarized row. *)
Definition world_5_6_7 : world :=
  mkworld [a_row 5; a_row 6; a_summarized_row 7] [] [].

(** A store whose last id is 100. *)
Definition world_100 : world := mkworld [a_row 100] [] [].

(** A notification that carries a summary already. *)
Definition summarized_notification (n : Z) : dict :=
  [("code", VStr "AVOD");
   ("notification_id", VInt n);
   ("publish_date", VStr "01.12.2022 18:05:11");
   ("disclosure_tpye", VStr "ODA");
   ("year", VStr "2022");
   ("period", VStr "");
   ("summary", VStr "Genel Kurul");
   ("related", VStr "[]");
   ("explanations", VStr "Genel Kurul Toplanti Sonucu");
   ("explanation_summary", VStr "Toplanti yapildi;12")].

(** A store with the ids 5 and 9, and the gaps 6, 7, 8. *)
Definition world_5_9 : world := mkworld [a_row 9; a_row 5] [] [].

(** A row whose explanation is NULL. *)
Definition a_row_without_explanation (n : Z) : row :=
  mkrow (VStr "AVOD") (Some n) (VStr "01.12.2022 18:05:11") (VStr "ODA")
    (VStr "2022") (VStr "") (VStr "Genel Kurul") (VStr "[]") VNone VNone.

(** The module with a summarization service that is down. *)
Definition env_service_down : env :=
  mkenv site_101_110 (fun _ => None) (fun s => String.eqb s "12") false.


Definition a_company_row (code : string) : KAP_COMPANIES.row :=
  KAP_COMPANIES.mkrow (Some code) (Some "AVOD GIDA") (Some "IZMIR")
    (Some "https://www.kap.org.tr/tr/sirket-bilgileri/ozet/avod")
    (Some "1234567890") (Some "98765") (Some "Gida") (Some "info@avod.com.tr")
    (Some "www.avod.com.tr") (Some "Menemen / IZMIR") (Some "IMALAT").

(** A site whose company pages all show the company named by the url. *)
Definition company_pages : reader.company_site :=
  fun url =>
    Ret (reader.company_page
           (reader.mkcompany "AVOD GIDA" url "1234567890" "98765" "Gida"
              "info@avod.com.tr" "www.avod.com.tr"
              "Ataturk Mah. No 5 Menemen/ IZMIR" None)).

(** Two rows of the company list, as [read_companies_list] builds them:
    three cells and the url. *)
Definition two_companies : list (list string) :=
  [["AVOD"; "AVOD GIDA"; "IZMIR"; "AVOD"];
   ["BIMAS"; "BIM MAGAZALAR"; "ISTANBUL"; "BIMAS"]].

(** ** Proof steps *)

(** Integer facts stated through boolean tests. *)
Ltac zbool :=
  repeat match goal with
    | H : _ && _ = true |- _ => apply andb_true_iff in H; destruct H
    | H : _ && _ = false |- _ => apply andb_false_iff in H; destruct H
    | H : (_ <=? _) = true |- _ => apply Z.leb_le in H
    | H : (_ <=? _) = false |- _ => apply Z.leb_gt in H
    | H : (_ <? _) = true |- _ => apply Z.ltb_lt in H
    | H : (_ <? _) = false |- _ => apply Z.ltb_ge in H
    | H : (_ =? _) = true |- _ => apply Z.eqb_eq in H
    | H : (_ =? _) = false |- _ => apply Z.eqb_neq in H
    | |- true = _ => symmetry
    | |- false = _ => symmetry
    | |- _ && _ = true => apply andb_true_iff; split
    | |- (_ <=? _) = true => apply Z.leb_le
    | |- (_ <=? _) = false => apply Z.leb_gt
    | |- (_ <? _) = true => apply Z.ltb_lt
    | |- (_ <? _) = false => apply Z.ltb_ge
    | |- (_ =? _) = true => apply Z.eqb_eq
    | |- (_ =? _) = false => apply Z.eqb_neq
    end;
  try lia.

(** * Theorems *)

(** ** The fetcher *)

Section Fetcher.

Variable e : env.

(** sqlite3 refuses the nine values of [notification_dict]: the row of
    that id is deleted and nothing is inserted. *)
Lemma save_fetched_dict (f : page_fields) (id : Z) (t : table) :
  database.save_notification (reader.notification_dict f id) t
  = (Ret (database.failed ProgrammingError), without id t).
Proof. reflexivity. Qed.

(** [get_notification] by the answer of the site. *)
Lemma get_notification_cases (id : Z) (w : world) :
  reader.get_notification e id false w =
  match site e id (count_requests id (requests w)) with
  | request_exception => (Ret (PyDict reader.request_error), requested id w)
  | http status_code content =>
      if status_code =? 200 then
        match content with
        | other_page => (Raise IndexError, requested id w)
        | notification_page f =>
            (Ret (PyDict (reader.notification_dict f id)),
             mkworld (without id (db w)) (requests w ++ [id]) (log_txt w))
        end
      else (Ret (PyDict reader.not_found), requested id w)
  end.
Proof.
  unfold reader.get_notification, bind, reader.requests_get.
  destruct (site e id (count_requests id (requests w))) as [|status_code content];
    [reflexivity|].
  destruct (status_code =? 200); cbn [negb]; [|reflexivity].
  destruct content as [f|]; [|reflexivity].
  unfold on_db; cbn [db requests log_txt].
  rewrite save_fetched_dict. reflexivity.
Qed.

(** The value [get_notification] returns is never [None]. *)
Lemma get_notification_not_None (id : Z) (return_soup : bool) (w : world) :
  fst (reader.get_notification e id return_soup w) <> Ret PyNone.
Proof.
  unfold reader.get_notification, bind, reader.requests_get.
  destruct (site e id (count_requests id (requests w))) as [|status_code content];
    cbn; [discriminate|].
  destruct (status_code =? 200); cbn; [|discriminate].
  destruct return_soup; [cbn; discriminate|].
  destruct content; cbn; discriminate.
Qed.

End Fetcher.


Lemma copies_without (n : Z) (t : table) : copies n (without n t) = 0%nat.
Proof.
  unfold copies, without. induction t as [|r t IH]; [reflexivity|].
  cbn [filter]. destruct (sql_eq (NOTIFICATION_ID r) (Some n)) eqn:E; cbn [negb].
  - exact IH.
  - cbn [filter]. rewrite E. exact IH.
Qed.

(** C8 (as amended).  [get_notification] reports ['request error'] exactly
    when [requests.get] raises, and ['not found'] exactly when the site
    answers with a status other than 200, a 5xx included. *)
Theorem get_notification_classification
  (e : env) (id : Z) (return_soup : bool) (w : world) :
  let answer := site e id (count_requests id (requests w)) in
  let returned := fst (reader.get_notification e id return_soup w) in
  (returned = Ret (PyDict reader.request_error) <-> answer = request_exception)
  /\ (returned = Ret (PyDict reader.not_found)
      <-> exists status_code content,
            answer = http status_code content /\ status_code <> 200).
Proof.
  cbv zeta. unfold reader.get_notification, bind, reader.requests_get.
  destruct (site e id (count_requests id (requests w)))
    as [|status_code content]; cbn.
  - split; split; intro H; try reflexivity; try discriminate.
    destruct H as (s & c & H & _). discriminate.
  - destruct (Z.eqb_spec status_code 200) as [E|E]; cbn.
    + split; split; intro H; try discriminate.
      * destruct return_soup; [discriminate|].
        destruct content; cbn in H; discriminate.
      * destruct return_soup; [discriminate|].
        destruct content; cbn in H; discriminate.
      * destruct H as (s & c & H & Hs). injection H as -> ->. contradiction.
    + split; split; intro H; try discriminate; try reflexivity.
      exists status_code, content. split; [reflexivity|exact E].
Qed.

(** C8, the claim as stated fails: a 500 answer is reported as
    ['not found'], not as a request error. *)
Lemma server_error_reported_not_found :
  fst (reader.get_notification (env_of site_500) 1083301 false world_100)
  = Ret (PyDict reader.not_found)
  /\ fst (reader.get_notification (env_of site_500) 1083301 false world_100)
     <> Ret (PyDict reader.request_error).
Proof. split; [reflexivity|discriminate]. Qed.



(** ** The forward crawler *)

Section Crawler.

Variable e : env.

(** The rows [get_last_notification] fetches carry a non-NULL id, so the
    test against [[(None, None)]] never holds. *)
Lemma get_last_notification_not_minus_one (t : table) :
  database.get_last_notification t <> database.minus_one.
Proof.
  unfold database.get_last_notification.
  destruct (filter _ t) as [|r l] eqn:E; [discriminate|].
  assert (Hr : sql_eq (NOTIFICATION_ID r) (sql_max (ids t)) = true).
  { assert (Hin : In r (filter (fun r => sql_eq (NOTIFICATION_ID r) (sql_max (ids t))) t))
      by (rewrite E; left; reflexivity).
    apply filter_In in Hin. exact (proj2 Hin). }
  cbn [map database.is_none_none].
  destruct (NOTIFICATION_ID r); [discriminate|discriminate Hr].
Qed.

(** The loop never raises [StopIteration]: what it tests for is never
    returned. *)
Lemma crawl_no_StopIteration (l : list Z) (w : world) :
  fst (reader.crawl e l w) <> Raise StopIteration.
Proof.
  revert w. induction l as [|id l IH]; intro w; cbn [reader.crawl].
  - discriminate.
  - unfold bind. rewrite get_notification_cases.
    destruct (site e id _) as [|status_code content].
    + apply IH.
    + destruct (status_code =? 200).
      * destruct content; [apply IH|discriminate].
      * apply IH.
Qed.

(** [get_notifications] never ends with ['final page reached']. *)
Lemma get_notifications_never_final_page (limit : Z) (w : world) :
  fst (reader.get_notifications e limit w) <> Ret reader.final_page_reached.
Proof.
  unfold reader.get_notifications.
  destruct (database.get_last_notification (db w)) as [|[|[i d] rows]];
    try discriminate.
  destruct (match i with Some (-1) => Some reader.notification_initial_id | _ => i end)
    as [last|]; [|discriminate].
  unfold except_StopIteration, bind.
  pose proof (crawl_no_StopIteration
                (range (last + 1) (last + 1 + limit)) w) as Hc.
  destruct (reader.crawl e _ w) as [[[]|ex|b] w']; cbn in *; try discriminate.
  destruct ex; try discriminate. contradiction.
Qed.

(** A run whose fetches raise or find a notification page requests every
    id of the list, once, in order. *)
Lemma crawl_requests_all (l : list Z) (w : world) :
  (forall id k, In id l ->
     site e id k = request_exception
     \/ exists f, site e id k = http 200 (notification_page f)) ->
  exists w',
    reader.crawl e l w = (Ret tt, w')
    /\ requests w' = requests w ++ l
    /\ log_txt w' = log_txt w.
Proof.
  revert w. induction l as [|id l IH]; intros w Hsite; cbn [reader.crawl].
  - exists w. rewrite app_nil_r. repeat split.
  - unfold bind. rewrite get_notification_cases.
    assert (Hl : forall id' k, In id' l ->
              site e id' k = request_exception
              \/ exists f, site e id' k = http 200 (notification_page f))
      by (intros; apply Hsite; right; assumption).
    destruct (Hsite id (count_requests id (requests w)) (or_introl eq_refl))
      as [-> | [f ->]]; cbn.
    + destruct (IH (requested id w) Hl) as (w' & Hrun & Hreq & Hlog).
      exists w'. split; [exact Hrun|]. rewrite Hreq, Hlog. cbn.
      rewrite <- app_assoc. split; reflexivity.
    + destruct (IH (mkworld (without id (db w)) (requests w ++ [id]) (log_txt w)) Hl)
        as (w' & Hrun & Hreq & Hlog).
      exists w'. split; [exact Hrun|]. rewrite Hreq, Hlog. cbn.
      rewrite <- app_assoc. split; reflexivity.
Qed.

End Crawler.

Lemma count_requests_app (n : Z) (l1 l2 : list Z) :
  count_requests n (l1 ++ l2)
  = (count_requests n l1 + count_requests n l2)%nat.
Proof.
  unfold count_requests. rewrite filter_app, length_app. reflexivity.
Qed.

Lemma count_requests_count_from (n start : Z) (k : nat) :
  count_requests n (count_from start k)
  = if (start <=? n) && (n <? start + Z.of_nat k) then 1%nat else 0%nat.
Proof.
  revert start. induction k as [|k IH]; intro start.
  - cbn [count_from count_requests filter List.length].
    destruct ((start <=? n) && (n <? start + Z.of_nat 0)) eqn:E;
      [zbool|reflexivity].
  - cbn [count_from]. unfold count_requests in *. cbn [filter].
    destruct (Z.eqb_spec n start) as [->|Hne].
    + cbn [List.length]. rewrite IH.
      replace ((start + 1 <=? start) && (start <? start + 1 + Z.of_nat k))
        with false by (symmetry; apply andb_false_iff; left; lia).
      replace ((start <=? start) && (start <? start + Z.of_nat (S k)))
        with true by zbool.
      reflexivity.
    + rewrite IH.
      destruct ((start + 1 <=? n) && (n <? start + 1 + Z.of_nat k)) eqn:E1;
        destruct ((start <=? n) && (n <? start + Z.of_nat (S k))) eqn:E2;
        try reflexivity; zbool.
Qed.

Lemma In_count_from (n start : Z) (k : nat) :
  In n (count_from start k) <-> start <= n < start + Z.of_nat k.
Proof.
  revert start. induction k as [|k IH]; intro start; cbn [count_from In].
  - lia.
  - rewrite IH. lia.
Qed.

(** C7 (what the code does).  On an empty store [get_last_notification]
    returns the empty list, and [get_notifications] raises [IndexError] on
    its first line: nothing is requested from the site. *)
Theorem get_notifications_empty_store
  (e : env) (limit : Z) (sent : list Z) (log : list log_line) :
  database.get_last_notification [] = database.fetched []
  /\ reader.get_notifications e limit (mkworld [] sent log)
     = (Raise IndexError, mkworld [] sent log).
Proof. split; reflexivity. Qed.

(** C1 (what the code does).  With Found for 101..110 and not found from
    111 on, a run from a store at 100 with limit 20 requests 101..120 and
    ends on the limit; with limit -1 it requests nothing. *)
Theorem crawler_runs_past_not_found :
  reader.get_notifications (env_of site_101_110) 20 world_100
  = (Ret reader.limit_parameter_reached,
     mkworld [a_row 100] (range 101 121) [])
  /\ reader.get_notifications (env_of site_101_110) (-1) world_100
     = (Ret reader.limit_parameter_reached, world_100).
Proof. split; vm_compute; reflexivity. Qed.

(** C5 (as amended).  The crawl starts after the last stored id [m],
    and after [notification_initial_id] when that id is -1.  When every
    fetch of the range either raises in the request or finds a
    notification page, [get_notifications] requests every id from that
    start + 1 up to the limit exactly once, in increasing order, and
    ends on the limit: a request error is neither retried nor raised to
    the caller. *)
Theorem get_notifications_ignores_request_errors
  (e : env) (limit : Z) (w : world) (m : Z) (d : value)
  (rows : list (option Z * value))
  (Hlast : database.get_last_notification (db w)
           = database.fetched ((Some m, d) :: rows)) :
  let first :=
    (if m =? -1 then reader.notification_initial_id else m) + 1 in
  forall
    (Hsite : forall id k, In id (range first (first + limit)) ->
               site e id k = request_exception
               \/ exists f, site e id k = http 200 (notification_page f)),
  exists w',
    reader.get_notifications e limit w
    = (Ret reader.limit_parameter_reached, w')
    /\ requests w' = requests w ++ range first (first + limit)
    /\ forall n, In n (range first (first + limit)) ->
         count_requests n (requests w') = S (count_requests n (requests w)).
Proof.
  intros first Hsite.
  unfold reader.get_notifications. rewrite Hlast.
  assert (Hsel : match Some m with
                 | Some (-1) => Some reader.notification_initial_id
                 | _ => Some m
                 end
                 = Some (if m =? -1 then reader.notification_initial_id else m)).
  { destruct m as [|p|p]; try reflexivity. destruct p; reflexivity. }
  rewrite Hsel. fold first.
  destruct (crawl_requests_all e _ w Hsite) as (w' & Hrun & Hreq & _).
  exists w'. unfold except_StopIteration, bind. rewrite Hrun. cbn.
  split; [reflexivity|]. split; [exact Hreq|].
  intros n Hn. rewrite Hreq, count_requests_app.
  unfold range in *. rewrite count_requests_count_from.
  apply In_count_from in Hn.
  replace ((first <=? n) && (n <? first + Z.of_nat (Z.to_nat (first + limit - first))))
    with true by zbool.
  lia.
Qed.

Lemma get_notifications_ignores_request_errors_witness :
  let first :=
    (if 100 =? -1 then reader.notification_initial_id else 100) + 1 in
  exists w',
    reader.get_notifications (env_of site_error_105) 10 world_100
    = (Ret reader.limit_parameter_reached, w')
    /\ requests w' = requests world_100 ++ range first (first + 10)
    /\ forall n, In n (range first (first + 10)) ->
         count_requests n (requests w')
         = S (count_requests n (requests world_100)).
Proof.
  apply (get_notifications_ignores_request_errors
           (env_of site_error_105) 10 world_100 100
           (VStr "01.12.2022 18:05:11") []).
  - reflexivity.
  - intros id k _. unfold env_of, site_error_105; cbn [site].
    destruct (id =? 105); [left; reflexivity|right; eexists; reflexivity].
Defined.

(** C5, the claim as stated fails: after the request error at 105 the
    crawler goes on to 106..110 and returns without an error. *)
Lemma crawler_goes_on_after_request_error :
  reader.get_notifications (env_of site_error_105) 10 world_100
  = (Ret reader.limit_parameter_reached,
     mkworld [a_row 100] [101; 102; 103; 104; 105; 106; 107; 108; 109; 110] []).
Proof. vm_compute. reflexivity. Qed.

(** ** The store *)

Section Store.

Lemma copies_app (n : Z) (t1 t2 : table) :
  copies n (t1 ++ t2) = (copies n t1 + copies n t2)%nat.
Proof. unfold copies. rewrite filter_app, length_app. reflexivity. Qed.

Lemma copies_without_other (n k : Z) (t : table) :
  k <> n -> copies k (without n t) = copies k t.
Proof.
  intro Hk. unfold copies, without. induction t as [|r t IH]; [reflexivity|].
  cbn [filter].
  destruct (sql_eq (NOTIFICATION_ID r) (Some n)) eqn:En;
    destruct (sql_eq (NOTIFICATION_ID r) (Some k)) eqn:Ek;
    cbn [negb filter List.length]; rewrite ?Ek; cbn [List.length];
    rewrite ?IH; try reflexivity.
  exfalso. destruct (NOTIFICATION_ID r) as [i|]; [|discriminate].
  cbn [sql_eq] in *. zbool.
Qed.

(** A notification that does not bind the ten placeholders: the delete
    is committed, the insert is refused, [(0, str(ex))] is returned. *)
Lemma save_notification_refused (notification : dict) (t : table) (n : Z) :
  dict_get "notification_id" (VInt (-1)) notification = VInt n ->
  List.length (dict_values notification) <> 10%nat ->
  database.save_notification notification t
  = (Ret (database.failed ProgrammingError), without n t)
  /\ database.save_notification_commits notification t = [without n t].
Proof.
  intros Hid Hlen.
  unfold database.save_notification, database.save_notification_commits,
    try_except, bind.
  rewrite Hid. cbn [database.delete_notification].
  assert (Hins : forall t', database.insert_notification (dict_values notification) t'
                            = (Raise ProgrammingError, t')).
  { intro t'. unfold database.insert_notification.
    destruct (dict_values notification) as [|? [|? [|? [|? [|? [|? [|? [|? [|? [|? [|? ?]]]]]]]]]]];
      try reflexivity.
    exfalso. apply Hlen. reflexivity. }
  rewrite Hins. split; reflexivity.
Qed.

(** A notification of ten values one of which is an int outside 64
    bits: the delete is committed, the insert is refused. *)
Lemma save_notification_overflow (notification : dict) (t : table) (n : Z) :
  dict_get "notification_id" (VInt (-1)) notification = VInt n ->
  List.length (dict_values notification) = 10%nat ->
  forallb binds (dict_values notification) = false ->
  database.save_notification notification t
  = (Ret (database.failed OverflowError), without n t)
  /\ database.save_notification_commits notification t = [without n t].
Proof.
  intros Hid Hlen Hwide.
  unfold database.save_notification, database.save_notification_commits,
    try_except, bind.
  rewrite Hid. cbn [database.delete_notification].
  assert (Hins : forall t', database.insert_notification (dict_values notification) t'
                            = (Raise OverflowError, t')).
  { intro t'. unfold database.insert_notification.
    destruct (dict_values notification) as [|? [|? [|? [|? [|? [|? [|? [|? [|? [|? [|? ?]]]]]]]]]]];
      try discriminate.
    rewrite Hwide. reflexivity. }
  rewrite Hins. split; reflexivity.
Qed.

(** C3 (as amended).  For a notification with the ten values in column
    order, every int among them within 64 bits, and the int [n] as its
    id, [save_notification] commits twice: first the table without the
    rows of id [n], then that table with the new row appended.  No row
    of id [n] is stored at the first commit, exactly one at the second,
    and the rows of every other id are as many as before at both.  A
    notification of the same id whose insert is refused, because its
    values do not bind the ten placeholders or because one of the ten is
    an int outside 64 bits, leaves the table at the first commit: the
    old rows deleted, no new row. *)
Theorem save_notification_commits_twice
  (notification : dict) (t : table) (n : Z)
  (c pd dt y p su rel ex es : value)
  (Hid : dict_get "notification_id" (VInt (-1)) notification = VInt n)
  (Hvalues : dict_values notification
             = [c; VInt n; pd; dt; y; p; su; rel; ex; es])
  (Hbinds : forallb binds [c; VInt n; pd; dt; y; p; su; rel; ex; es] = true) :
  let new :=
    mkrow (text_affinity c) (Some n) (text_affinity pd) (text_affinity dt)
      (text_affinity y) (text_affinity p) (text_affinity su) rel ex es in
  database.save_notification_commits notification t
  = [without n t; without n t ++ [new]]
  /\ database.save_notification notification t
     = (Ret database.ok, without n t ++ [new])
  /\ copies n (without n t) = 0%nat
  /\ copies n (without n t ++ [new]) = 1%nat
  /\ (forall k, k <> n ->
        copies k (without n t) = copies k t
        /\ copies k (without n t ++ [new]) = copies k t)
  /\ (forall refused,
        dict_get "notification_id" (VInt (-1)) refused = VInt n ->
        List.length (dict_values refused) <> 10%nat ->
        database.save_notification refused t
        = (Ret (database.failed ProgrammingError), without n t))
  /\ (forall refused,
        dict_get "notification_id" (VInt (-1)) refused = VInt n ->
        List.length (dict_values refused) = 10%nat ->
        forallb binds (dict_values refused) = false ->
        database.save_notification refused t
        = (Ret (database.failed OverflowError), without n t)).
Proof.
  intro new.
  unfold database.save_notification, database.save_notification_commits,
    try_except, bind.
  rewrite Hid, Hvalues. cbn [database.delete_notification].
  unfold database.insert_notification. rewrite Hbinds. cbn [bind_id].
  fold (without n t). fold new.
  split; [reflexivity|]. split; [reflexivity|].
  split; [apply copies_without|].
  split.
  - rewrite copies_app, copies_without. unfold copies, new. cbn.
    rewrite Z.eqb_refl. reflexivity.
  - split.
    + intros k Hk. split; [apply copies_without_other; exact Hk|].
      rewrite copies_app, copies_without_other by exact Hk.
      unfold copies, new. cbn.
      destruct (Z.eqb_spec n k) as [E|_]; [congruence|]. cbn. lia.
    + split.
      * intros refused Hid' Hlen.
        exact (proj1 (save_notification_refused refused t n Hid' Hlen)).
      * intros refused Hid' Hlen Hwide.
        exact (proj1 (save_notification_overflow refused t n Hid' Hlen Hwide)).
Qed.

Lemma save_notification_commits_twice_witness :
  let new :=
    mkrow (text_affinity (VStr "AVOD")) (Some 5)
      (text_affinity (VStr "01.12.2022 18:05:11")) (text_affinity (VStr "ODA"))
      (text_affinity (VStr "2022")) (text_affinity (VStr ""))
      (text_affinity (VStr "Genel Kurul")) (VStr "[]")
      (VStr "Genel Kurul Toplanti Sonucu") VNone in
  database.save_notification_commits (a_notification 5) [a_row 5; a_row 6]
  = [without 5 [a_row 5; a_row 6]; without 5 [a_row 5; a_row 6] ++ [new]]
  /\ database.save_notification (a_notification 5) [a_row 5; a_row 6]
     = (Ret database.ok, without 5 [a_row 5; a_row 6] ++ [new])
  /\ copies 5 (without 5 [a_row 5; a_row 6]) = 0%nat
  /\ copies 5 (without 5 [a_row 5; a_row 6] ++ [new]) = 1%nat
  /\ (forall k, k <> 5 ->
        copies k (without 5 [a_row 5; a_row 6]) = copies k [a_row 5; a_row 6]
        /\ copies k (without 5 [a_row 5; a_row 6] ++ [new])
           = copies k [a_row 5; a_row 6])
  /\ (forall refused,
        dict_get "notification_id" (VInt (-1)) refused = VInt 5 ->
        List.length (dict_values refused) <> 10%nat ->
        database.save_notification refused [a_row 5; a_row 6]
        = (Ret (database.failed ProgrammingError),
           without 5 [a_row 5; a_row 6]))
  /\ (forall refused,
        dict_get "notification_id" (VInt (-1)) refused = VInt 5 ->
        List.length (dict_values refused) = 10%nat ->
        forallb binds (dict_values refused) = false ->
        database.save_notification refused [a_row 5; a_row 6]
        = (Ret (database.failed OverflowError),
           without 5 [a_row 5; a_row 6])).
Proof.
  apply (save_notification_commits_twice (a_notification 5)
           [a_row 5; a_row 6] 5); reflexivity.
Defined.

(** C3, the claim as stated fails: the delete is committed on its own.
    The first state [save_notification] commits holds neither the old row
    of id 5 nor the new one, and when the insert is refused (the
    nine-value dict of [get_notification]) the store is left that way. *)
Lemma save_notification_not_atomic :
  hd_error (database.save_notification_commits (a_notification 5) [a_row 5])
  = Some []
  /\ database.save_notification
       (reader.notification_dict
          (mkfields "AVOD" "01.12.2022 18:05:11" "ODA" "2022" ""
             "Genel Kurul" "[]" "Genel Kurul Toplanti Sonucu") 5)
       [a_row 5]
     = (Ret (database.failed ProgrammingError), []).
Proof. split; reflexivity. Qed.


Lemma cell_set_column (c : column) (v s : value) (r r' : row) :
  stored_as c v = Some s ->
  set_column c v r = Some r' ->
  cell c r' = s /\ forall c', c' <> c -> cell c' r' = cell c' r.
Proof.
  intros Hs Hset.
  destruct c; cbn in Hs, Hset;
    try (injection Hs as <-; injection Hset as <-;
         split; [reflexivity|intros c' Hc'; destruct c'; try reflexivity; congruence]).
  destruct v as [|i|str]; cbn in Hs, Hset; try discriminate;
    injection Hs as <-; injection Hset as <-;
    (split; [reflexivity|intros c' Hc'; destruct c'; try reflexivity; congruence]).
Qed.

Lemma set_column_defined (c : column) (v s : value) (r : row) :
  stored_as c v = Some s -> exists r', set_column c v r = Some r'.
Proof.
  intro Hs. destruct c; cbn in *; try (eexists; reflexivity).
  destruct v; cbn; try discriminate; eexists; reflexivity.
Qed.

Lemma stored_false_iff (n : Z) (t : table) :
  stored n t = false <->
  forall r, In r t -> sql_eq (NOTIFICATION_ID r) (Some n) = false.
Proof.
  unfold stored. induction t as [|r t IH]; cbn [existsb In].
  - split; [intros _ r []|reflexivity].
  - rewrite orb_false_iff, IH. split.
    + intros [H1 H2] r' [<-|Hin]; [exact H1|exact (H2 _ Hin)].
    + intro H. split; [apply H; left; reflexivity|].
      intros r' Hin. apply H. right. exact Hin.
Qed.

(** [update_notification] when sqlite3 binds the value and the id. *)
Lemma update_notification_bound
  (notification_id : option Z) (column_name : column) (v : value) (t : table) :
  binds v = true -> database.binds_id notification_id t = true ->
  database.update_notification notification_id column_name v t
  = match column_name, bind_id v with
    | col_NOTIFICATION_ID, None => (Beyond TextId, t)
    | _, _ =>
        (Ret database.ok,
         map (fun r =>
                if sql_eq (NOTIFICATION_ID r) notification_id
                then match set_column column_name v r with
                     | Some r' => r'
                     | None => r
                     end
                else r) t)
    end.
Proof.
  intros Hv Hid.
  unfold database.update_notification, database.update_rows, try_except, bind.
  rewrite Hv, Hid. cbn [andb].
  destruct column_name; try reflexivity.
  destruct (bind_id v); reflexivity.
Qed.

(** [update_notification] when sqlite3 refuses the value or the id. *)
Lemma update_notification_overflow
  (notification_id : option Z) (column_name : column) (v : value) (t : table) :
  binds v && database.binds_id notification_id t = false ->
  database.update_notification notification_id column_name v t
  = (Ret (database.failed OverflowError), t).
Proof.
  intro Hwide.
  unfold database.update_notification, database.update_rows, try_except, bind.
  rewrite Hwide. reflexivity.
Qed.

(** C9 (as amended).  For an id and a value that sqlite3 binds (an int
    within 64 bits), [update_notification] reports success whether or
    not the id is stored.  Every row of that id gets the bound value in
    the named column and keeps its other cells, every other row is kept
    as it is, and when no row carries the id the table is unchanged.  An
    int outside 64 bits, as the value or as an id that no row carries,
    is refused: the failure is reported and the table is unchanged. *)
Theorem update_notification_reports_ok
  (notification_id : Z) (column_name : column) (v s : value) (t : table)
  (Hs : stored_as column_name v = Some s)
  (Hv : binds v = true)
  (Hid : int64 notification_id = true) :
  exists t',
    database.update_notification (Some notification_id) column_name v t
    = (Ret database.ok, t')
    /\ List.length t' = List.length t
    /\ (forall i r, nth_error t i = Some r ->
          exists r',
            nth_error t' i = Some r'
            /\ if sql_eq (NOTIFICATION_ID r) (Some notification_id)
               then cell column_name r' = s
                    /\ forall c', c' <> column_name -> cell c' r' = cell c' r
               else r' = r)
    /\ (stored notification_id t = false -> t' = t)
    /\ (forall wide,
          int64 wide = false -> stored wide t = false ->
          database.update_notification (Some wide) column_name v t
          = (Ret (database.failed OverflowError), t))
    /\ (forall wide,
          int64 wide = false ->
          database.update_notification (Some notification_id) column_name
            (VInt wide) t
          = (Ret (database.failed OverflowError), t)).
Proof.
  rewrite (update_notification_bound (Some notification_id) column_name v t Hv)
    by (cbn [database.binds_id]; rewrite Hid; reflexivity).
  set (f := fun r : row =>
              if sql_eq (NOTIFICATION_ID r) (Some notification_id)
              then match set_column column_name v r with
                   | Some r' => r'
                   | None => r
                   end
              else r).
  exists (map f t).
  split.
  { destruct column_name; try reflexivity.
    destruct v; cbn in Hs |- *; try reflexivity. discriminate. }
  split; [apply length_map|].
  split.
  - intros i r Hi. exists (f r). split.
    + rewrite nth_error_map, Hi. reflexivity.
    + unfold f. destruct (sql_eq (NOTIFICATION_ID r) (Some notification_id));
        [|reflexivity].
      destruct (set_column_defined column_name v s r Hs) as [r' Hr'].
      rewrite Hr'. exact (cell_set_column column_name v s r r' Hs Hr').
  - split.
    + intro Habsent. rewrite stored_false_iff in Habsent.
      rewrite <- (map_id t) at 2. apply map_ext_in.
      intros r Hin. unfold f. rewrite (Habsent r Hin). reflexivity.
    + split.
      * intros wide Hwide Habsent. apply update_notification_overflow.
        cbn [database.binds_id]. unfold stored in Habsent.
        rewrite Hwide, Habsent. apply andb_false_r.
      * intros wide Hwide. apply update_notification_overflow.
        cbn [binds]. rewrite Hwide. reflexivity.
Qed.

Lemma update_notification_reports_ok_witness :
  exists t',
    database.update_notification (Some 5) col_EXPLANATION_SUMMARY
      (VStr "ozet;12") [a_row 5; a_row 6]
    = (Ret database.ok, t')
    /\ List.length t' = List.length [a_row 5; a_row 6]
    /\ (forall i r, nth_error [a_row 5; a_row 6] i = Some r ->
          exists r',
            nth_error t' i = Some r'
            /\ if sql_eq (NOTIFICATION_ID r) (Some 5)
               then cell col_EXPLANATION_SUMMARY r' = VStr "ozet;12"
                    /\ forall c', c' <> col_EXPLANATION_SUMMARY ->
                         cell c' r' = cell c' r
               else r' = r)
    /\ (stored 5 [a_row 5; a_row 6] = false -> t' = [a_row 5; a_row 6])
    /\ (forall wide,
          int64 wide = false -> stored wide [a_row 5; a_row 6] = false ->
          database.update_notification (Some wide) col_EXPLANATION_SUMMARY
            (VStr "ozet;12") [a_row 5; a_row 6]
          = (Ret (database.failed OverflowError), [a_row 5; a_row 6]))
    /\ (forall wide,
          int64 wide = false ->
          database.update_notification (Some 5) col_EXPLANATION_SUMMARY
            (VInt wide) [a_row 5; a_row 6]
          = (Ret (database.failed OverflowError), [a_row 5; a_row 6])).
Proof.
  apply (update_notification_reports_ok 5 col_EXPLANATION_SUMMARY
           (VStr "ozet;12") (VStr "ozet;12") [a_row 5; a_row 6]);
    reflexivity.
Defined.

(** C9, the claim as stated fails: an update for an id that is not
    stored reports [(1, 'ok')] and leaves the table as it was. *)
Lemma update_of_absent_id_reports_ok :
  stored 42 [a_row 5] = false
  /\ database.update_notification (Some 42) col_EXPLANATION_SUMMARY
       (VStr "ozet;12") [a_row 5]
     = (Ret database.ok, [a_row 5]).
Proof. split; reflexivity. Qed.

(** An id one above the largest 64-bit integer: the insert is refused
    after the delete has run, the update before it touches a row. *)
Example wide_id_is_refused :
  database.save_notification (a_notification 9223372036854775808) [a_row 5]
  = (Ret (database.failed OverflowError), [a_row 5])
  /\ database.update_notification (Some 9223372036854775808)
       col_EXPLANATION_SUMMARY (VStr "ozet;12") [a_row 5]
     = (Ret (database.failed OverflowError), [a_row 5]).
Proof. split; reflexivity. Qed.

End Store.

(** ** The gap finder *)

Section GapFinder.

Lemma fold_left_min_spec (l : list Z) (x : Z) :
  (fold_left Z.min l x = x \/ In (fold_left Z.min l x) l)
  /\ fold_left Z.min l x <= x
  /\ forall y, In y l -> fold_left Z.min l x <= y.
Proof.
  revert x. induction l as [|a l IH]; intro x; cbn [fold_left In].
  - split; [left; reflexivity|]. split; [lia|intros y []].
  - destruct (IH (Z.min x a)) as (Hin & Hle & Hall).
    split; [|split].
    + destruct Hin as [E|Hin]; [|right; right; exact Hin].
      rewrite E. destruct (Z.min_spec x a) as [[_ ->]|[_ ->]];
        [left; reflexivity|right; left; reflexivity].
    + lia.
    + intros y [<-|Hy]; [lia|exact (Hall y Hy)].
Qed.

Lemma fold_left_max_spec (l : list Z) (x : Z) :
  (fold_left Z.max l x = x \/ In (fold_left Z.max l x) l)
  /\ x <= fold_left Z.max l x
  /\ forall y, In y l -> y <= fold_left Z.max l x.
Proof.
  revert x. induction l as [|a l IH]; intro x; cbn [fold_left In].
  - split; [left; reflexivity|]. split; [lia|intros y []].
  - destruct (IH (Z.max x a)) as (Hin & Hle & Hall).
    split; [|split].
    + destruct Hin as [E|Hin]; [|right; right; exact Hin].
      rewrite E. destruct (Z.max_spec x a) as [[_ ->]|[_ ->]];
        [right; left; reflexivity|left; reflexivity].
    + lia.
    + intros y [<-|Hy]; [lia|exact (Hall y Hy)].
Qed.

Lemma sql_min_spec (l : list Z) (m : Z) :
  sql_min l = Some m -> In m l /\ forall y, In y l -> m <= y.
Proof.
  destruct l as [|x l]; [discriminate|]. cbn [sql_min].
  intro H. injection H as <-.
  destruct (fold_left_min_spec l x) as (Hin & Hle & Hall). split.
  - destruct Hin as [->|Hin]; [left; reflexivity|right; exact Hin].
  - intros y [<-|Hy]; [exact Hle|exact (Hall y Hy)].
Qed.

Lemma sql_max_spec (l : list Z) (m : Z) :
  sql_max l = Some m -> In m l /\ forall y, In y l -> y <= m.
Proof.
  destruct l as [|x l]; [discriminate|]. cbn [sql_max].
  intro H. injection H as <-.
  destruct (fold_left_max_spec l x) as (Hin & Hle & Hall). split.
  - destruct Hin as [->|Hin]; [left; reflexivity|right; exact Hin].
  - intros y [<-|Hy]; [exact Hle|exact (Hall y Hy)].
Qed.

(** A row carries the id exactly when the id is among [ids]. *)
Lemma stored_iff_In_ids (n : Z) (t : table) :
  existsb (fun b => sql_eq (Some n) (NOTIFICATION_ID b)) t = true
  <-> In n (ids t).
Proof.
  induction t as [|r t IH]; cbn [existsb ids].
  - split; [discriminate|intros []].
  - rewrite orb_true_iff, IH.
    destruct (NOTIFICATION_ID r) as [i|]; cbn [sql_eq In].
    + rewrite Z.eqb_eq. split; intros [H|H]; auto.
    + split; [intros [H|H]; [discriminate|exact H]|intro H; right; exact H].
Qed.

Lemma count_from_sorted (start : Z) (n : nat) :
  StronglySorted Z.lt (count_from start n).
Proof.
  revert start. induction n as [|n IH]; intro start; cbn [count_from].
  - constructor.
  - constructor; [apply IH|].
    apply Forall_forall. intros x Hx. apply In_count_from in Hx. lia.
Qed.

Lemma filter_sorted (f : Z -> bool) (l : list Z) :
  StronglySorted Z.lt l -> StronglySorted Z.lt (filter f l).
Proof.
  induction 1 as [|a l Hl IH Ha]; cbn [filter]; [constructor|].
  destruct (f a); [|exact IH].
  constructor; [exact IH|].
  rewrite Forall_forall in *. intros x Hx. apply filter_In in Hx.
  apply Ha. exact (proj1 Hx).
Qed.

Lemma map_add_count_from (d start : Z) (n : nat) :
  map (fun x => x + d) (count_from start n) = count_from (start + d) n.
Proof.
  revert start. induction n as [|n IH]; intro start; cbn [count_from map];
    [reflexivity|].
  rewrite IH. f_equal. f_equal. lia.
Qed.

(** The test [x < d] keeps a prefix of the count. *)
Lemma filter_lt_count_from (d start : Z) (n : nat) :
  filter (fun x => x <? d) (count_from start n)
  = count_from start (Nat.min n (Z.to_nat (d - start))).
Proof.
  revert start. induction n as [|n IH]; intro start; cbn [count_from filter].
  - reflexivity.
  - rewrite IH. destruct (Z.ltb_spec start d) as [Hlt|Hge].
    + replace (Z.to_nat (d - start)) with (S (Z.to_nat (d - (start + 1))))
        by lia.
      reflexivity.
    + replace (Z.to_nat (d - (start + 1))) with 0%nat by lia.
      replace (Z.to_nat (d - start)) with 0%nat by lia.
      rewrite !Nat.min_0_r. reflexivity.
Qed.

(** [get_missing_notifications] without the million-row table: the ids
    above the minimum, as far as the maximum and the end of [c] allow,
    that no row carries. *)
Lemma get_missing_notifications_closed (t : table) :
  database.get_missing_notifications t =
  match sql_min (ids t), sql_max (ids t) with
  | Some min_id, Some max_id =>
      filter (fun CID =>
                negb (existsb (fun b => sql_eq (Some CID) (NOTIFICATION_ID b)) t))
        (count_from (1 + min_id)
           (Z.to_nat (Z.min database.c_last (max_id - min_id - 1))))
  | _, _ => []
  end.
Proof.
  unfold database.get_missing_notifications, database.c.
  destruct (sql_min (ids t)) as [min_id|]; [|reflexivity].
  destruct (sql_max (ids t)) as [max_id|]; [|reflexivity].
  rewrite filter_lt_count_from, map_add_count_from.
  replace (Nat.min (Z.to_nat database.c_last) (Z.to_nat (max_id - min_id - 1)))
    with (Z.to_nat (Z.min database.c_last (max_id - min_id - 1)))
    by (unfold database.c_last; lia).
  reflexivity.
Qed.


Lemma In_get_missing_notifications (t : table) (m M k : Z) :
  sql_min (ids t) = Some m -> sql_max (ids t) = Some M ->
  In k (database.get_missing_notifications t)
  <-> m < k < M /\ k <= m + database.c_last /\ ~ In k (ids t).
Proof.
  intros Hmin Hmax. rewrite get_missing_notifications_closed, Hmin, Hmax.
  rewrite filter_In, In_count_from, negb_true_iff.
  rewrite <- not_true_iff_false, stored_iff_In_ids.
  unfold database.c_last. intuition lia.
Qed.

Lemma get_missing_notifications_sorted (t : table) :
  StronglySorted Z.lt (database.get_missing_notifications t).
Proof.
  rewrite get_missing_notifications_closed.
  destruct (sql_min (ids t)); [|constructor].
  destruct (sql_max (ids t)); [|constructor].
  apply filter_sorted, count_from_sorted.
Qed.

(** What [get_missing_notifications] returns for every table (the
    computation behind C6): in increasing order and without repeats, the
    ids strictly between the smallest and the largest stored id that no
    row carries and that lie at most 1000000 above the smallest.  When
    the largest id is at most 1000001 above the smallest, the result
    together with the stored ids is the whole interval.  For the ids
    5, 6, 9, 10, 15 the result is 7, 8, 11, 12, 13, 14; for an empty or
    a one-row table it is empty. *)
Theorem get_missing_notifications_gaps :
  (forall (t : table) (m M : Z),
     sql_min (ids t) = Some m -> sql_max (ids t) = Some M ->
     StronglySorted Z.lt (database.get_missing_notifications t)
     /\ (forall k, In k (database.get_missing_notifications t)
                   <-> m < k < M /\ k <= m + 1000000 /\ ~ In k (ids t))
     /\ (M - m <= 1000001 ->
         forall k, In k (database.get_missing_notifications t ++ ids t)
                   <-> m <= k <= M))
  /\ database.get_missing_notifications (map a_row [5; 6; 9; 10; 15])
     = [7; 8; 11; 12; 13; 14]
  /\ database.get_missing_notifications [] = []
  /\ (forall r, database.get_missing_notifications [r] = []).
Proof.
  split; [|split; [|split]].
  - intros t m M Hmin Hmax.
    split; [apply get_missing_notifications_sorted|].
    split; [intro k; apply (In_get_missing_notifications t m M k Hmin Hmax)|].
    intros Hspan k. rewrite in_app_iff.
    rewrite (In_get_missing_notifications t m M k Hmin Hmax).
    destruct (sql_min_spec _ _ Hmin) as [Hm Hm'].
    destruct (sql_max_spec _ _ Hmax) as [HM HM'].
    unfold database.c_last. split.
    + intros [(H1 & H2 & _)|H]; [lia|].
      specialize (Hm' k H). specialize (HM' k H). lia.
    + intro Hk. destruct (in_dec Z.eq_dec k (ids t)) as [Hin|Hout];
        [right; exact Hin|left].
      assert (k <> m) by (intros ->; contradiction).
      assert (k <> M) by (intros ->; contradiction).
      repeat split; try lia. exact Hout.
  - rewrite get_missing_notifications_closed. vm_compute. reflexivity.
  - reflexivity.
  - intro r. rewrite get_missing_notifications_closed.
    cbn [ids]. destruct (NOTIFICATION_ID r) as [n|]; [|reflexivity].
    cbn [sql_min sql_max fold_left].
    replace (Z.to_nat (Z.min database.c_last (n - n - 1))) with 0%nat
      by (unfold database.c_last; lia).
    reflexivity.
Qed.

(** C6 (what the code does).  With the ids 1 and 1000003 stored, the id
    1000002 lies between the smallest and the largest stored id and is
    not stored, yet [get_missing_notifications] does not report it: the
    recursive table [c] ends at 1000000, where the docstring of the
    method promises the sequence of ids from the minimum to the maximum
    stored id. *)
Lemma gap_beyond_the_million_not_reported :
  sql_min (ids [a_row 1; a_row 1000003]) = Some 1
  /\ sql_max (ids [a_row 1; a_row 1000003]) = Some 1000003
  /\ ~ In 1000002 (ids [a_row 1; a_row 1000003])
  /\ ~ In 1000002
       (database.get_missing_notifications [a_row 1; a_row 1000003]
        ++ ids [a_row 1; a_row 1000003]).
Proof.
  split; [reflexivity|]. split; [reflexivity|].
  assert (Hout : ~ In 1000002 (ids [a_row 1; a_row 1000003])).
  { cbn. intros [H|[H|[]]]; discriminate. }
  split; [exact Hout|].
  rewrite in_app_iff. intros [H|H]; [|exact (Hout H)].
  apply (In_get_missing_notifications _ 1 1000003) in H; try reflexivity.
  unfold database.c_last in H. lia.
Qed.

End GapFinder.

(** ** The refresher *)

Section Refresher.

(** With no global [kr], the first turn of the [while] loop raises
    [NameError]: the request is not sent again. *)
Lemma retry_unbound_kr (e : env) (fuel : nat) (j : Z) (marks : string)
  (w : world) :
  kr_bound e = false ->
  reader.retry e (S fuel) j (PyDict reader.request_error) marks w
  = (Raise NameError, w).
Proof.
  intro Hkr. cbn [reader.retry]. unfold bind, reader.kr_get_notification.
  cbn. rewrite Hkr. reflexivity.
Qed.

(** Whatever the range, the loop ends with [NameError] at the first id
    whose request raises. *)
Lemma refresh_raises_at_request_error (e : env) (fuel : nat) (i j : Z)
  (l : list (Z * Z)) (log : list log_line) (w : world) :
  kr_bound e = false ->
  site e j (count_requests j (requests w)) = request_exception ->
  reader.refresh e (S fuel) ((i, j) :: l) log w
  = (Raise NameError, requested j w).
Proof.
  intros Hkr Hsite. cbn [reader.refresh]. unfold bind at 1.
  rewrite get_notification_cases, Hsite.
  unfold bind at 1. cbn [reader.is_request_error].
  change (value_eqb (dict_get "error" (VStr "") reader.request_error)
            (VStr "request error")) with true.
  unfold ret at 1. unfold bind at 1. unfold bind at 1.
  rewrite retry_unbound_kr by exact Hkr. reflexivity.
Qed.

(** C4 (what the code does).  With the request for 7 raising three times
    before it succeeds, a refresh over [7, 8) sends one request, enters
    the retry loop and raises [NameError] at [kr.get_notification]: no
    retry is sent, no log line is kept or written, nothing is stored. *)
Theorem refresh_stops_at_the_first_retry
  (fuel : nat) (t : table) (log : list log_line) :
  reader._refresh_all_notifications (env_of site_7_thrice) (S fuel)
    (Some 7) (Some 8) (mkworld t [] log)
  = (Raise NameError, mkworld t [7] log).
Proof. reflexivity. Qed.

(** With [kr] bound to a reader, the same refresh sends the request four
    times and builds the log line with three retry marks; the line is
    not written to the file (the index never reaches 50) and the record
    is not stored (the insert is refused). *)
Example refresh_with_kr_bound :
  reader._refresh_all_notifications
    (mkenv site_7_thrice (fun _ => None) (fun _ => false) true) 3
    (Some 7) (Some 8) (mkworld [] [] [])
  = (Ret [mklog 0 7 "~~~;"], mkworld [] [7; 7; 7; 7] []).
Proof. reflexivity. Qed.

End Refresher.

(** ** The enrichment batch *)

Section Enricher.

Variable e : env.

Lemma insert_desc_perm (r : row) (l : list row) :
  Permutation (insert_desc r l) (r :: l).
Proof.
  induction l as [|h l IH]; cbn [insert_desc]; [reflexivity|].
  destruct (id_gtb (NOTIFICATION_ID h) (NOTIFICATION_ID r)); [|reflexivity].
  rewrite IH. apply perm_swap.
Qed.

Lemma order_by_id_desc_perm (l : list row) :
  Permutation (order_by_id_desc l) l.
Proof.
  induction l as [|r l IH]; cbn [order_by_id_desc]; [reflexivity|].
  rewrite insert_desc_perm. constructor. exact IH.
Qed.

(** Under the limit, the batch reads every candidate. *)
Lemma missing_summaries_all (top_n : Z) (t : table) :
  int64 top_n = true ->
  top_n < 0 \/ Z.of_nat (List.length (candidates t)) <= top_n ->
  exists l,
    database.missing_summaries top_n t = Ret l
    /\ Permutation l (candidates t).
Proof.
  intros Hn Hlimit. unfold database.missing_summaries, sql_limit.
  rewrite Hn. fold (candidates t). eexists. split; [reflexivity|].
  destruct (Z.ltb_spec top_n 0) as [Hneg|Hpos].
  - apply order_by_id_desc_perm.
  - rewrite firstn_all2; [apply order_by_id_desc_perm|].
    rewrite (Permutation_length (order_by_id_desc_perm (candidates t))).
    lia.
Qed.

(** An id that a row of the table carries binds. *)
Lemma binds_id_of_row (n : Z) (t : table) (r : row) :
  In r t -> NOTIFICATION_ID r = Some n ->
  database.binds_id (Some n) t = true.
Proof.
  intros Hin Hid. cbn [database.binds_id]. apply orb_true_iff. right.
  apply existsb_exists. exists r. split; [exact Hin|].
  rewrite Hid. cbn [sql_eq]. apply Z.eqb_refl.
Qed.

Lemma NOTIFICATION_ID_enriched_in (done : list Z) (r : row) :
  NOTIFICATION_ID (enriched_in e done r) = NOTIFICATION_ID r.
Proof.
  unfold enriched_in. destruct (NOTIFICATION_ID r) as [n|] eqn:En;
    [|exact En].
  destruct (summary_written e r); [|exact En].
  destruct (_ && _); [exact En|exact En].
Qed.

Lemma EXPLANATIONS_enriched_in (done : list Z) (r : row) :
  EXPLANATIONS (enriched_in e done r) = EXPLANATIONS r.
Proof.
  unfold enriched_in. destruct (NOTIFICATION_ID r); [|reflexivity].
  destruct (summary_written e r); [|reflexivity].
  destruct (_ && _); reflexivity.
Qed.

Lemma filter_map_commute {A} (p : A -> bool) (f : A -> A) (l : list A) :
  (forall x, p (f x) = p x) ->
  filter p (map f l) = map f (filter p l).
Proof.
  intro Hp. induction l as [|x l IH]; cbn [map filter]; [reflexivity|].
  rewrite Hp. destruct (p x); cbn [map]; rewrite IH; reflexivity.
Qed.

(** The one row of an id that is stored once. *)
Lemma the_row_of_id (n : Z) (t : table) (r : row) :
  copies n t = 1%nat -> In r t -> NOTIFICATION_ID r = Some n ->
  filter (fun r => sql_eq (NOTIFICATION_ID r) (Some n)) t = [r].
Proof.
  unfold copies. intros Hone Hin Hid.
  assert (Hr : In r (filter (fun r => sql_eq (NOTIFICATION_ID r) (Some n)) t)).
  { apply filter_In. split; [exact Hin|]. rewrite Hid. cbn. apply Z.eqb_refl. }
  destruct (filter _ t) as [|a [|b l]]; cbn in Hone; try discriminate.
  destruct Hr as [->|[]]. reflexivity.
Qed.


Lemma existsb_eqb_In (n : Z) (l : list Z) :
  existsb (Z.eqb n) l = true <-> In n l.
Proof.
  rewrite existsb_exists. split.
  - intros (x & Hx & E). apply Z.eqb_eq in E. subst. exact Hx.
  - intro H. exists n. split; [exact H|apply Z.eqb_refl].
Qed.

Lemma set_summary (v : value) (r : row) :
  set_column col_EXPLANATION_SUMMARY v r = Some (with_summary v r).
Proof. reflexivity. Qed.

Lemma with_summary_again (v v' : value) (r : row) :
  with_summary v (with_summary v' r) = with_summary v r.
Proof. reflexivity. Qed.

(** A candidate among the enriched ids carries its summary; it is either
    the row as it was or the row with that summary before. *)
Lemma enriched_in_done (done : list Z) (r : row) (n : Z) (v : value) :
  NOTIFICATION_ID r = Some n ->
  is_null (EXPLANATION_SUMMARY r) = true ->
  summary_written e r = Some v ->
  enriched_in e (n :: done) r = with_summary v r
  /\ (enriched_in e done r = r \/ enriched_in e done r = with_summary v r).
Proof.
  intros Hid Hnull Hv. unfold enriched_in. rewrite Hid, Hv, Hnull.
  cbn [andb existsb]. rewrite Z.eqb_refl. cbn [orb].
  split; [reflexivity|].
  destruct (existsb (Z.eqb n) done); [right|left]; reflexivity.
Qed.

Lemma enriched_in_other (done : list Z) (r : row) (n : Z) :
  sql_eq (NOTIFICATION_ID r) (Some n) = false ->
  enriched_in e (n :: done) r = enriched_in e done r.
Proof.
  intro Hne. unfold enriched_in.
  destruct (NOTIFICATION_ID r) as [k|]; [|reflexivity].
  destruct (summary_written e r); [|reflexivity].
  cbn [existsb]. cbn [sql_eq] in Hne. rewrite Hne. reflexivity.
Qed.

(** One turn of the batch on a candidate whose id is stored once. *)
Lemma save_notification_summary_step
  (t0 : table) (done : list Z) (w : world) (r0 : row) (n : Z) (v : value) :
  In r0 t0 -> NOTIFICATION_ID r0 = Some n -> copies n t0 = 1%nat ->
  is_null (EXPLANATION_SUMMARY r0) = true ->
  summary_written e r0 = Some v ->
  db w = map (enriched_in e done) t0 ->
  reader.save_notification_summary e (Some n) w
  = (Ret (reader.from_update database.ok),
     mkworld (map (enriched_in e (n :: done)) t0) (requests w) (log_txt w)).
Proof.
  intros Hin Hid Hone Hnull Hv Hdb.
  pose proof (the_row_of_id n t0 r0 Hone Hin Hid) as Hrow.
  destruct (enriched_in_done done r0 n v Hid Hnull Hv) as [Hnew Hold].
  unfold reader.save_notification_summary, bind, on_db.
  cbn [database.get_notification]. rewrite Hdb.
  rewrite filter_map_commute
    by (intro x; rewrite NOTIFICATION_ID_enriched_in; reflexivity).
  rewrite Hrow. cbn [map]. rewrite EXPLANATIONS_enriched_in.
  unfold summary_written in Hv.
  destruct (EXPLANATIONS r0) as [| |s] eqn:Hs; try discriminate.
  unfold try_except, bind, reader.summarize_explanation.
  destruct (chat_completion e (substring 0 reader.API_MAX_CONTEXT_LENGTH s))
    as [[summary tokens]|] eqn:Hchat; [|discriminate].
  injection Hv as <-.
  cbn [ret db requests log_txt].
  rewrite update_notification_bound;
    [|reflexivity
     |apply (binds_id_of_row n _ (enriched_in e done r0));
        [apply in_map; exact Hin
        |rewrite NOTIFICATION_ID_enriched_in; exact Hid]].
  unfold ret. cbn [bind_id db requests log_txt].
  f_equal. f_equal. rewrite map_map. apply map_ext_in.
  intros r Hr. rewrite NOTIFICATION_ID_enriched_in, set_summary.
  destruct (sql_eq (NOTIFICATION_ID r) (Some n)) eqn:En.
  - assert (Hr0 : In r [r0]).
    { rewrite <- Hrow. apply filter_In. split; assumption. }
    destruct Hr0 as [<-|[]].
    rewrite Hnew. destruct Hold as [->| ->]; reflexivity.
  - symmetry. apply enriched_in_other. exact En.
Qed.

Lemma read_tokens_readable (l : list row) (w : world) :
  (forall r, In r l -> readable e (EXPLANATION_SUMMARY r) = true) ->
  reader.read_tokens e l w = (Ret tt, w).
Proof.
  induction l as [|r l IH]; intro H; cbn [reader.read_tokens]; [reflexivity|].
  pose proof (H r (or_introl eq_refl)) as Hr. unfold readable in Hr.
  destruct (EXPLANATION_SUMMARY r); try discriminate.
  rewrite Hr. apply IH. intros r' Hr'. apply H. right. exact Hr'.
Qed.


Section Batch.

Variable t0 : table.

Hypothesis Hservice : forall text, chat_completion e text <> None.

Hypothesis Hcandidates :
  forall r, In r t0 -> is_null (EXPLANATION_SUMMARY r) = true ->
    exists n s,
      NOTIFICATION_ID r = Some n /\ copies n t0 = 1%nat
      /\ EXPLANATIONS r = VStr s.

(** What the batch writes for a candidate. *)
Lemma candidate_written (r : row) :
  In r t0 -> is_null (EXPLANATION_SUMMARY r) = true ->
  exists n s summary tokens,
    NOTIFICATION_ID r = Some n /\ copies n t0 = 1%nat
    /\ chat_completion e (substring 0 reader.API_MAX_CONTEXT_LENGTH s)
       = Some (summary, tokens)
    /\ summary_written e r
       = Some (VStr (summary ++ ";" ++ str_of_Z tokens)%string).
Proof.
  intros Hin Hnull.
  destruct (Hcandidates r Hin Hnull) as (n & s & Hid & Hone & Hs).
  destruct (chat_completion e (substring 0 reader.API_MAX_CONTEXT_LENGTH s))
    as [[summary tokens]|] eqn:Hchat;
    [|exfalso; exact (Hservice _ Hchat)].
  exists n, s, summary, tokens. split; [exact Hid|]. split; [exact Hone|].
  split; [exact Hchat|].
  unfold summary_written. rewrite Hs, Hchat. reflexivity.
Qed.

Section Statistics.

Hypothesis Hold :
  forall r, In r t0 -> is_null (EXPLANATION_SUMMARY r) = false ->
    readable e (EXPLANATION_SUMMARY r) = true.

Hypothesis Hnew :
  forall text summary tokens,
    chat_completion e text = Some (summary, tokens) ->
    int_accepts e (reader.last_piece (summary ++ ";" ++ str_of_Z tokens)%string)
    = true.

(** Every summary in a partly enriched table can be read. *)
Lemma enriched_in_readable (done : list Z) (r : row) :
  In r t0 ->
  is_null (EXPLANATION_SUMMARY (enriched_in e done r)) = false ->
  readable e (EXPLANATION_SUMMARY (enriched_in e done r)) = true.
Proof.
  intros Hin Hset.
  destruct (is_null (EXPLANATION_SUMMARY r)) eqn:Hnull.
  - destruct (candidate_written r Hin Hnull)
      as (n & s & summary & tokens & Hid & _ & Hchat & Hw).
    unfold enriched_in in *. rewrite Hid, Hw, Hnull in *.
    cbn [andb] in *.
    destruct (existsb (Z.eqb n) done); [exact (Hnew _ _ _ Hchat)|].
    rewrite Hnull in Hset. discriminate.
  - assert (E : enriched_in e done r = r).
    { unfold enriched_in. destruct (NOTIFICATION_ID r); [|reflexivity].
      destruct (summary_written e r); [|reflexivity].
      rewrite Hnull. reflexivity. }
    rewrite E. exact (Hold r Hin Hnull).
Qed.

(** The token statistics do not raise once a candidate is enriched. *)
Lemma token_stats_ok (done : list Z) (w : world) (r0 : row) (n : Z) :
  db w = map (enriched_in e done) t0 ->
  In r0 t0 -> is_null (EXPLANATION_SUMMARY r0) = true ->
  NOTIFICATION_ID r0 = Some n -> In n done ->
  reader.token_stats e w = (Ret tt, w).
Proof.
  intros Hdb Hin Hnull Hid Hdone.
  unfold reader.token_stats, bind. rewrite read_tokens_readable.
  - destruct (database.with_summaries (db w)) as [|a l] eqn:E; [|reflexivity].
    exfalso.
    destruct (candidate_written r0 Hin Hnull)
      as (n' & s & summary & tokens & _ & _ & _ & Hw).
    assert (Hmem : In (enriched_in e done r0) (database.with_summaries (db w))).
    { unfold database.with_summaries. apply filter_In. split.
      - rewrite Hdb. apply in_map. exact Hin.
      - unfold enriched_in. rewrite Hid, Hw, Hnull.
        apply existsb_eqb_In in Hdone. rewrite Hdone. reflexivity. }
    rewrite E in Hmem. exact Hmem.
  - intros r Hr. unfold database.with_summaries in Hr.
    apply filter_In in Hr. destruct Hr as [Hr Hset].
    rewrite Hdb in Hr. apply in_map_iff in Hr.
    destruct Hr as (r1 & <- & Hr1).
    apply enriched_in_readable; [exact Hr1|].
    apply negb_true_iff. exact Hset.
Qed.

End Statistics.

(** The statistics are read at the indices 100, 200, ... only. *)
Lemma no_statistics_below_100 (i : Z) :
  i < 100 -> (i mod 100 =? 0) && (0 <? i) = false.
Proof.
  intro Hi. destruct (Z.ltb_spec 0 i) as [Hpos|Hneg];
    [|apply andb_false_r].
  rewrite andb_true_r. apply Z.eqb_neq.
  rewrite Z.mod_small by lia. lia.
Qed.

(** The loop over a list of candidates enriches each of them. *)
Lemma summarize_each_candidates (l : list row) :
  forall (i : Z) (done : list Z) (w : world),
    (forall r, In r l -> In r t0 /\ is_null (EXPLANATION_SUMMARY r) = true) ->
    statistics_safe e t0 i (List.length l) ->
    db w = map (enriched_in e done) t0 ->
    exists done',
      reader.summarize_each e (enumerate_from i (map NOTIFICATION_ID l)) w
      = (Ret (repeat true (List.length l)),
         mkworld (map (enriched_in e done') t0) (requests w) (log_txt w))
      /\ forall k, In k done' <-> In k done \/ In (Some k) (map NOTIFICATION_ID l).
Proof.
  induction l as [|r l IH]; intros i done w Hl Hsafe Hdb.
  - exists done. cbn. split.
    + unfold ret. rewrite <- Hdb. destruct w; reflexivity.
    + intro k. tauto.
  - destruct (Hl r (or_introl eq_refl)) as [Hin Hnull].
    destruct (candidate_written r Hin Hnull)
      as (n & s & summary & tokens & Hid & Hone & _ & Hw).
    cbn [map enumerate_from reader.summarize_each List.length repeat].
    rewrite Hid. unfold bind at 1.
    rewrite (save_notification_summary_step t0 done w r n _ Hin Hid Hone Hnull Hw Hdb).
    set (w1 := mkworld (map (enriched_in e (n :: done)) t0) (requests w) (log_txt w)).
    assert (Hstats : (if (i mod 100 =? 0) && (0 <? i)
                      then reader.token_stats e else ret tt) w1 = (Ret tt, w1)).
    { destruct Hsafe as [Hfew|[Hold Hnew]].
      - rewrite no_statistics_below_100; [reflexivity|].
        cbn [List.length] in Hfew. lia.
      - destruct ((i mod 100 =? 0) && (0 <? i)); [|reflexivity].
        apply (token_stats_ok Hold Hnew (n :: done) w1 r n); try assumption.
        + reflexivity.
        + left; reflexivity. }
    unfold bind at 1. rewrite Hstats.
    destruct (IH (i + 1) (n :: done) w1) as (done' & Hrun & Hdone').
    { intros r' Hr'. apply Hl. right. exact Hr'. }
    { destruct Hsafe as [Hfew|Hread]; [left|right; exact Hread].
      cbn [List.length] in Hfew. lia. }
    { reflexivity. }
    exists done'. unfold bind. rewrite Hrun. split; [reflexivity|].
    intro k. rewrite Hdone'. cbn [In]. split.
    + intros [[<-|H]|H]; auto.
    + intros [H|[H|H]]; auto. injection H as <-. auto.
Qed.

End Batch.

Lemma enriched_in_nil (r : row) : enriched_in e [] r = r.
Proof.
  unfold enriched_in. destruct (NOTIFICATION_ID r); [|reflexivity].
  destruct (summary_written e r); [|reflexivity].
  cbn [existsb]. rewrite andb_false_r. reflexivity.
Qed.

Lemma filter_nothing {A} (p : A -> bool) (l : list A) :
  (forall x, In x l -> p x = false) -> filter p l = [].
Proof.
  induction l as [|x l IH]; intro H; cbn [filter]; [reflexivity|].
  rewrite (H x (or_introl eq_refl)). apply IH.
  intros y Hy. apply H. right. exact Hy.
Qed.

(** C10 (as amended).  When the batch limit is an int within 64 bits,
    the summarization call always answers, the
    table holds no more candidates than the batch limit, every candidate
    has an id that no other row carries and a text as its explanation,
    and the token statistics cannot raise (at most 100 candidates, or
    every summary stored or written ends in a count that [int()] reads):
    one run of [save_notification_summaries] updates each candidate once,
    sets its summary to the text [<summary>;<tokens>] and leaves every
    other cell and row as it was; a second run finds no candidate and
    changes nothing.  With a limit outside 64 bits the query is refused
    and the batch raises before it reads a record. *)
Theorem save_notification_summaries_twice
  (top_n : Z) (w : world)
  (Hn : int64 top_n = true)
  (Hservice : forall text, chat_completion e text <> None)
  (Hcandidates :
     forall r, In r (db w) -> is_null (EXPLANATION_SUMMARY r) = true ->
       exists n s,
         NOTIFICATION_ID r = Some n /\ copies n (db w) = 1%nat
         /\ EXPLANATIONS r = VStr s)
  (Hlimit : top_n < 0 \/ Z.of_nat (List.length (candidates (db w))) <= top_n)
  (Hstats : statistics_safe e (db w) 0 (List.length (candidates (db w)))) :
  let w1 := mkworld (map (enriched e) (db w)) (requests w) (log_txt w) in
  reader.save_notification_summaries e top_n w
  = (Ret (repeat true (List.length (candidates (db w)))), w1)
  /\ (forall r, In r (db w) -> is_null (EXPLANATION_SUMMARY r) = true ->
        exists s summary tokens,
          EXPLANATIONS r = VStr s
          /\ chat_completion e (substring 0 reader.API_MAX_CONTEXT_LENGTH s)
             = Some (summary, tokens)
          /\ enriched e r
             = with_summary (VStr (summary ++ ";" ++ str_of_Z tokens)%string) r)
  /\ (forall r, In r (db w) -> is_null (EXPLANATION_SUMMARY r) = false ->
        enriched e r = r)
  /\ database.missing_summaries top_n (db w1) = Ret []
  /\ reader.save_notification_summaries e top_n w1 = (Ret [], w1)
  /\ (forall wide,
        int64 wide = false ->
        reader.save_notification_summaries e wide w
        = (Raise IntegrityError, w)).
Proof.
  intro w1.
  destruct (missing_summaries_all top_n (db w) Hn Hlimit)
    as (l & Hquery & Hperm).
  assert (Hl : forall r, In r l ->
                 In r (db w) /\ is_null (EXPLANATION_SUMMARY r) = true).
  { intros r Hr. apply (Permutation_in _ Hperm) in Hr.
    unfold candidates in Hr. apply filter_In in Hr. exact Hr. }
  assert (Hnull_case :
            forall r, In r (db w) -> is_null (EXPLANATION_SUMMARY r) = true ->
              exists s summary tokens,
                EXPLANATIONS r = VStr s
                /\ chat_completion e (substring 0 reader.API_MAX_CONTEXT_LENGTH s)
                   = Some (summary, tokens)
                /\ enriched e r
                   = with_summary
                       (VStr (summary ++ ";" ++ str_of_Z tokens)%string) r).
  { intros r Hin Hnull.
    destruct (Hcandidates r Hin Hnull) as (n & s & _ & _ & Hs).
    destruct (chat_completion e (substring 0 reader.API_MAX_CONTEXT_LENGTH s))
      as [[summary tokens]|] eqn:Hchat;
      [|exfalso; exact (Hservice _ Hchat)].
    exists s, summary, tokens. split; [exact Hs|]. split; [exact Hchat|].
    unfold enriched, summary_written. rewrite Hs, Hchat, Hnull. reflexivity. }
  assert (Hset_case :
            forall r, In r (db w) -> is_null (EXPLANATION_SUMMARY r) = false ->
              enriched e r = r).
  { intros r _ Hset. unfold enriched.
    destruct (summary_written e r); [|reflexivity].
    rewrite Hset. reflexivity. }
  assert (Hmissing : database.missing_summaries top_n (db w1) = Ret []).
  { unfold database.missing_summaries.
    rewrite filter_nothing; [cbn; unfold sql_limit; rewrite Hn;
                             destruct (top_n <? 0);
                             [reflexivity|rewrite firstn_nil; reflexivity]|].
    intros r' Hr'. cbn [db w1] in Hr'. apply in_map_iff in Hr'.
    destruct Hr' as (r & <- & Hr).
    destruct (is_null (EXPLANATION_SUMMARY r)) eqn:Hnull.
    - destruct (Hnull_case r Hr Hnull) as (s & summary & tokens & _ & _ & ->).
      reflexivity.
    - rewrite (Hset_case r Hr Hnull). exact Hnull. }
  split; [|split; [exact Hnull_case|split; [exact Hset_case|split; [exact Hmissing|split]]]].
  - unfold reader.save_notification_summaries. rewrite Hquery.
    destruct (summarize_each_candidates (db w) Hservice Hcandidates
                l 0 [] w Hl) as (done' & Hrun & Hdone').
    { rewrite (Permutation_length Hperm). exact Hstats. }
    { rewrite <- (map_id (db w)) at 1. apply map_ext.
      intro r. symmetry. apply enriched_in_nil. }
    rewrite Hrun. rewrite (Permutation_length Hperm).
    f_equal. unfold w1. f_equal. apply map_ext_in.
    intros r Hr.
    destruct (is_null (EXPLANATION_SUMMARY r)) eqn:Hnull.
    + destruct (candidate_written (db w) Hservice Hcandidates r Hr Hnull)
        as (n & s & summary & tokens & Hid & _ & _ & Hw).
      assert (Hdone : In n done').
      { apply Hdone'. right. rewrite <- Hid. apply in_map.
        apply (Permutation_in _ (Permutation_sym Hperm)).
        unfold candidates. apply filter_In. split; assumption. }
      apply existsb_eqb_In in Hdone.
      unfold enriched_in, enriched. rewrite Hid, Hw, Hnull, Hdone. reflexivity.
    + rewrite (Hset_case r Hr Hnull). unfold enriched_in.
      destruct (NOTIFICATION_ID r); [|reflexivity].
      destruct (summary_written e r); [|reflexivity].
      rewrite Hnull. reflexivity.
  - unfold reader.save_notification_summaries. rewrite Hmissing. reflexivity.
  - intros wide Hwide.
    unfold reader.save_notification_summaries, database.missing_summaries,
      sql_limit.
    rewrite Hwide. reflexivity.
Qed.

End Enricher.

Lemma save_notification_summaries_twice_witness :
  let e := env_of site_101_110 in
  let w := world_5_6_7 in
  let w1 := mkworld (map (enriched e) (db w)) (requests w) (log_txt w) in
  reader.save_notification_summaries e 100 w
  = (Ret (repeat true (List.length (candidates (db w)))), w1)
  /\ (forall r, In r (db w) -> is_null (EXPLANATION_SUMMARY r) = true ->
        exists s summary tokens,
          EXPLANATIONS r = VStr s
          /\ chat_completion e (substring 0 reader.API_MAX_CONTEXT_LENGTH s)
             = Some (summary, tokens)
          /\ enriched e r
             = with_summary (VStr (summary ++ ";" ++ str_of_Z tokens)%string) r)
  /\ (forall r, In r (db w) -> is_null (EXPLANATION_SUMMARY r) = false ->
        enriched e r = r)
  /\ database.missing_summaries 100 (db w1) = Ret []
  /\ reader.save_notification_summaries e 100 w1 = (Ret [], w1)
  /\ (forall wide,
        int64 wide = false ->
        reader.save_notification_summaries e wide w
        = (Raise IntegrityError, w)).
Proof.
  apply (save_notification_summaries_twice (env_of site_101_110) 100
           world_5_6_7).
  - reflexivity.
  - intros text. discriminate.
  - intros r [<-|[<-|[<-|[]]]] Hnull.
    + exists 5, "Genel Kurul Toplanti Sonucu". repeat split; reflexivity.
    + exists 6, "Genel Kurul Toplanti Sonucu". repeat split; reflexivity.
    + discriminate Hnull.
  - right. vm_compute. discriminate.
  - right. split.
    + intros r [<-|[<-|[<-|[]]]] Hset.
      * discriminate Hset.
      * discriminate Hset.
      * reflexivity.
    + intros text summary tokens H. cbn in H. injection H as <- <-. reflexivity.
Defined.

(** C10, the claim as stated fails: with two candidates and a batch limit
    of 1, the first run enriches the row of id 6 only; the second run
    finds the row of id 5 as a candidate and updates it. *)
Lemma second_batch_finds_a_candidate :
  let e := env_of site_101_110 in
  let w := mkworld [a_row 5; a_row 6] [] [] in
  let w1 := snd (reader.save_notification_summaries e 1 w) in
  database.missing_summaries 1 (db w1) = Ret [a_row 5]
  /\ snd (reader.save_notification_summaries e 1 w1) <> w1.
Proof.
  split; [reflexivity|]. vm_compute. discriminate.
Qed.

(** A batch limit outside 64 bits: the query is refused and the batch
    ends with its exception before any record is read. *)
Example batch_limit_is_refused :
  reader.save_notification_summaries (env_of site_101_110)
    9223372036854775808 world_5_6_7
  = (Raise IntegrityError, world_5_6_7)
  /\ reader.save_notification_summaries (env_of site_101_110)
       (-9223372036854775809) world_5_6_7
     = (Raise IntegrityError, world_5_6_7).
Proof. split; reflexivity. Qed.

(** * Further properties *)

(** ** The store: lookup, delete and save *)

Section StoreRoundTrips.

Lemma rows_of_without (n : Z) (t : table) : rows_of n (without n t) = [].
Proof.
  unfold rows_of, without. induction t as [|r t IH]; [reflexivity|].
  cbn [filter]. destruct (sql_eq (NOTIFICATION_ID r) (Some n)) eqn:E;
    cbn [negb filter]; rewrite ?E; exact IH.
Qed.

Lemma rows_of_without_other (n k : Z) (t : table) :
  k <> n -> rows_of k (without n t) = rows_of k t.
Proof.
  intro Hk. unfold rows_of, without. induction t as [|r t IH]; [reflexivity|].
  cbn [filter].
  destruct (sql_eq (NOTIFICATION_ID r) (Some n)) eqn:En;
    destruct (sql_eq (NOTIFICATION_ID r) (Some k)) eqn:Ek;
    cbn [negb filter]; rewrite ?Ek; rewrite ?IH; try reflexivity.
  exfalso. destruct (NOTIFICATION_ID r) as [i|]; [|discriminate].
  cbn [sql_eq] in *. zbool.
Qed.

Lemma without_without (n : Z) (t : table) :
  without n (without n t) = without n t.
Proof.
  unfold without. induction t as [|r t IH]; [reflexivity|].
  cbn [filter]. destruct (sql_eq (NOTIFICATION_ID r) (Some n)) eqn:E;
    cbn [negb filter]; rewrite ?E; cbn [negb]; rewrite IH; reflexivity.
Qed.

Lemma without_app (n : Z) (t1 t2 : table) :
  without n (t1 ++ t2) = without n t1 ++ without n t2.
Proof. unfold without. apply filter_app. Qed.

Lemma rows_of_app (n : Z) (t1 t2 : table) :
  rows_of n (t1 ++ t2) = rows_of n t1 ++ rows_of n t2.
Proof. unfold rows_of. apply filter_app. Qed.

(** What [save_notification] does with a notification in the layout. *)
Lemma save_in_layout (notification : dict) (n : Z) (new : row) (t : table) :
  in_layout notification n new ->
  database.save_notification notification t
  = (Ret database.ok, without n t ++ [new]).
Proof.
  intros (Hid & Hrow & _).
  unfold database.save_notification, try_except, bind.
  rewrite Hid. cbn [database.delete_notification]. fold (without n t).
  unfold row_of_bindings in Hrow. unfold database.insert_notification.
  destruct (dict_values notification)
    as [|c [|i [|pd [|dt [|y [|p [|su [|rel [|ex [|es [|? ?]]]]]]]]]]];
    try discriminate.
  destruct (forallb binds _); [|discriminate].
  destruct (bind_id i); [|discriminate].
  injection Hrow as <-. reflexivity.
Qed.



Lemma In_ids (n : Z) (t : table) :
  In n (ids t) <-> exists r, In r t /\ NOTIFICATION_ID r = Some n.
Proof.
  induction t as [|r t IH]; cbn [ids In].
  - split; [intros []|intros (r & [] & _)].
  - destruct (NOTIFICATION_ID r) as [i|] eqn:E; cbn [In]; rewrite ?IH; split.
    + intros [<-|(r' & Hr' & Hid)]; [exists r; auto|exists r'; auto].
    + intros (r' & [<-|Hr'] & Hid); [left; congruence|right; exists r'; auto].
    + intros (r' & Hr' & Hid). exists r'. auto.
    + intros (r' & [<-|Hr'] & Hid); [congruence|exists r'; auto].
Qed.

(** X1.  On a table with some non-NULL id, [get_last_notification]
    returns the rows of the largest stored id, at least one, each as the
    pair of that id and its publish date; no stored id exceeds it. *)
Theorem get_last_notification_max (t : table) (M : Z)
  (Hmax : sql_max (ids t) = Some M) :
  database.get_last_notification t
  = database.fetched
      (map (fun r => (NOTIFICATION_ID r, PUBLISH_DATE r)) (rows_of M t))
  /\ rows_of M t <> []
  /\ (forall r, In r (rows_of M t) -> NOTIFICATION_ID r = Some M)
  /\ (forall n, In n (ids t) -> n <= M).
Proof.
  destruct (sql_max_spec _ _ Hmax) as [HM Hle].
  assert (Hne : rows_of M t <> []).
  { apply In_ids in HM. destruct HM as (r & Hr & Hid).
    intro E. assert (Hin : In r (rows_of M t)).
    { unfold rows_of. apply filter_In. split; [exact Hr|].
      rewrite Hid. cbn. apply Z.eqb_refl. }
    rewrite E in Hin. exact Hin. }
  split; [|split; [exact Hne|split; [|exact Hle]]].
  - pose proof (get_last_notification_not_minus_one t) as Hnot.
    unfold database.get_last_notification in *. rewrite Hmax in *.
    fold (rows_of M t) in *.
    destruct (database.is_none_none _); [contradiction|reflexivity].
  - intros r Hr. unfold rows_of in Hr. apply filter_In in Hr.
    destruct Hr as [_ Hid]. destruct (NOTIFICATION_ID r) as [i|];
      [|discriminate]. cbn in Hid. apply Z.eqb_eq in Hid. congruence.
Qed.

Lemma get_last_notification_max_witness :
  database.get_last_notification [a_row 7; a_row 100; a_row 9]
  = database.fetched
      (map (fun r => (NOTIFICATION_ID r, PUBLISH_DATE r))
         (rows_of 100 [a_row 7; a_row 100; a_row 9]))
  /\ rows_of 100 [a_row 7; a_row 100; a_row 9] <> []
  /\ (forall r, In r (rows_of 100 [a_row 7; a_row 100; a_row 9]) ->
        NOTIFICATION_ID r = Some 100)
  /\ (forall n, In n (ids [a_row 7; a_row 100; a_row 9]) -> n <= 100).
Proof.
  apply (get_last_notification_max [a_row 7; a_row 100; a_row 9] 100).
  reflexivity.
Defined.



Lemma rows_of_new (n : Z) (new : row) :
  NOTIFICATION_ID new = Some n -> rows_of n [new] = [new].
Proof.
  intro Hid. unfold rows_of. cbn [filter]. rewrite Hid. cbn [sql_eq].
  rewrite Z.eqb_refl. reflexivity.
Qed.

Lemma rows_of_new_other (n k : Z) (new : row) :
  NOTIFICATION_ID new = Some n -> k <> n -> rows_of k [new] = [].
Proof.
  intros Hid Hk. unfold rows_of. cbn [filter]. rewrite Hid. cbn [sql_eq].
  destruct (Z.eqb_spec n k); [congruence|reflexivity].
Qed.

Lemma without_new (n : Z) (new : row) :
  NOTIFICATION_ID new = Some n -> without n [new] = [].
Proof.
  intro Hid. unfold without. cbn [filter]. rewrite Hid. cbn [sql_eq].
  rewrite Z.eqb_refl. reflexivity.
Qed.


Lemma a_notification_in_layout (n : Z) :
  int64 n = true -> in_layout (a_notification n) n (a_row n).
Proof.
  intro Hn. split; [reflexivity|]. split; [|reflexivity].
  unfold row_of_bindings, a_notification, dict_values.
  cbn [map snd forallb binds]. rewrite Hn. reflexivity.
Qed.


(** X4.  Saving the same notification a second time leaves the table as
    the first save left it. *)
Theorem save_notification_idempotent
  (notification : dict) (n : Z) (new : row) (t : table)
  (Hlayout : in_layout notification n new) :
  exists t',
    database.save_notification notification t = (Ret database.ok, t')
    /\ database.save_notification notification t' = (Ret database.ok, t').
Proof.
  exists (without n t ++ [new]).
  rewrite !(save_in_layout notification n new) by exact Hlayout.
  destruct Hlayout as (_ & _ & Hid).
  split; [reflexivity|].
  rewrite without_app, without_without, (without_new n new Hid), app_nil_r.
  reflexivity.
Qed.

Lemma save_notification_idempotent_witness :
  exists t',
    database.save_notification (a_notification 6) [a_row 5; a_summarized_row 6]
    = (Ret database.ok, t')
    /\ database.save_notification (a_notification 6) t' = (Ret database.ok, t').
Proof.
  apply (save_notification_idempotent (a_notification 6) 6 (a_row 6)).
  repeat split.
Defined.

Lemma save_each_app (l1 l2 : list dict) (t : table) :
  save_each (l1 ++ l2) t
  = match save_each l1 t with
    | (Ret _, t1) => save_each l2 t1
    | (Raise ex, t1) => (Raise ex, t1)
    | (Beyond b, t1) => (Beyond b, t1)
    end.
Proof.
  revert t. induction l1 as [|d l1 IH]; intro t; cbn [app save_each].
  - reflexivity.
  - unfold bind. destruct (database.save_notification d t) as [[r|ex|b] t1];
      [apply IH|reflexivity|reflexivity].
Qed.

(** Saves in the layout run to the end; they keep the rows of an id that
    none of them carries. *)
Lemma save_each_in_layout (l : list dict) (t : table) :
  (forall d, In d l -> exists k r, in_layout d k r) ->
  exists t',
    save_each l t = (Ret tt, t')
    /\ forall n,
         (forall d, In d l ->
            dict_get "notification_id" (VInt (-1)) d <> VInt n) ->
         rows_of n t' = rows_of n t.
Proof.
  revert t. induction l as [|d l IH]; intros t Hall; cbn [save_each].
  - exists t. split; [reflexivity|]. intros; reflexivity.
  - destruct (Hall d (or_introl eq_refl)) as (k & r & Hd).
    unfold bind. rewrite (save_in_layout d k r t Hd).
    destruct (IH (without k t ++ [r])) as (t' & Hrun & Hkeep).
    { intros d' Hd'. apply Hall. right. exact Hd'. }
    exists t'. split; [exact Hrun|].
    intros n Hn. rewrite Hkeep by (intros d' Hd'; apply Hn; right; exact Hd').
    destruct Hd as (Hid & _ & Hrid).
    assert (Hnk : n <> k).
    { intros ->. apply (Hn d (or_introl eq_refl)). exact Hid. }
    rewrite rows_of_app, rows_of_without_other by exact Hnk.
    rewrite (rows_of_new_other k n r Hrid Hnk), app_nil_r. reflexivity.
Qed.

(** X5.  After any sequence of saves in the documented layout, a lookup
    of an id returns exactly one row, the row of the last notification
    saved under that id. *)
Theorem last_save_wins
  (l1 l2 : list dict) (notification : dict) (n : Z) (new : row) (t : table)
  (Hall : forall d, In d (l1 ++ l2) -> exists k r, in_layout d k r)
  (Hlayout : in_layout notification n new)
  (Hlast : forall d, In d l2 ->
             dict_get "notification_id" (VInt (-1)) d <> VInt n) :
  exists t',
    save_each (l1 ++ notification :: l2) t = (Ret tt, t')
    /\ database.get_notification (Some n) t' = (Ret [new], t')
    /\ copies n t' = 1%nat.
Proof.
  destruct (save_each_in_layout l1 t) as (t1 & Hrun1 & _).
  { intros d Hd. apply Hall. apply in_or_app. left. exact Hd. }
  destruct (save_each_in_layout l2 (without n t1 ++ [new]))
    as (t2 & Hrun2 & Hkeep).
  { intros d Hd. apply Hall. apply in_or_app. right. exact Hd. }
  exists t2. rewrite save_each_app, Hrun1. cbn [save_each]. unfold bind.
  rewrite (save_in_layout notification n new t1 Hlayout), Hrun2.
  destruct Hlayout as (_ & _ & Hid).
  assert (Hrows : rows_of n t2 = [new]).
  { rewrite (Hkeep n Hlast), rows_of_app, rows_of_without.
    apply rows_of_new. exact Hid. }
  split; [reflexivity|].
  cbn [database.get_notification]. fold (rows_of n t2). rewrite Hrows.
  split; [reflexivity|].
  unfold copies. fold (rows_of n t2). rewrite Hrows. reflexivity.
Qed.

Lemma last_save_wins_witness :
  exists t',
    save_each
      ([a_notification 5; summarized_notification 6]
       ++ a_notification 6 :: [a_notification 5])
      [a_row 6; a_row 6]
    = (Ret tt, t')
    /\ database.get_notification (Some 6) t' = (Ret [a_row 6], t')
    /\ copies 6 t' = 1%nat.
Proof.
  apply (last_save_wins [a_notification 5; summarized_notification 6]
           [a_notification 5] (a_notification 6) 6 (a_row 6)
           [a_row 6; a_row 6]).
  - intros d [<-|[<-|[<-|[]]]].
    + exists 5, (a_row 5). repeat split.
    + exists 6, (a_summarized_row 6). repeat split.
    + exists 5, (a_row 5). repeat split.
  - repeat split.
  - intros d [<-|[]]. discriminate.
Defined.

End StoreRoundTrips.

(** ** The fetching loops *)

Section FetchingLoops.

Variable e : env.

(** One call of [get_notification] sends one request; it ends with a
    value or with the [IndexError] of a page it cannot read. *)
Lemma get_notification_effect (id : Z) (w : world) :
  requests (snd (reader.get_notification e id false w)) = requests w ++ [id]
  /\ log_txt (snd (reader.get_notification e id false w)) = log_txt w
  /\ ((exists d, fst (reader.get_notification e id false w) = Ret (PyDict d))
      \/ (fst (reader.get_notification e id false w) = Raise IndexError
          /\ site e id (count_requests id (requests w)) = http 200 other_page)).
Proof.
  rewrite get_notification_cases.
  destruct (site e id (count_requests id (requests w)))
    as [|status_code content] eqn:Hsite.
  - cbn. repeat split. left. eexists. reflexivity.
  - destruct (Z.eqb_spec status_code 200) as [->|Hne].
    + destruct content as [f|]; cbn; repeat split.
      * left. eexists. reflexivity.
      * right. split; reflexivity.
    + cbn. repeat split. left. eexists. reflexivity.
Qed.

Lemma fetch_each_requests (l : list Z) (w : world) :
  (forall id k, In id l -> site e id k <> http 200 other_page) ->
  exists w',
    reader.fetch_each e l w = (Ret tt, w')
    /\ requests w' = requests w ++ l.
Proof.
  revert w. induction l as [|id l IH]; intros w Hsite; cbn [reader.fetch_each].
  - exists w. rewrite app_nil_r. split; reflexivity.
  - unfold bind.
    destruct (get_notification_effect id w) as (Hreq & _ & Hres).
    destruct (reader.get_notification e id false w) as [r w1].
    cbn [fst snd] in *.
    destruct Hres as [[d ->]|[_ Hbad]].
    + destruct (IH w1) as (w' & Hrun & Hreq').
      { intros id' k Hin. apply Hsite. right. exact Hin. }
      exists w'. split; [exact Hrun|].
      rewrite Hreq', Hreq, <- app_assoc. reflexivity.
    + exfalso. exact (Hsite id _ (or_introl eq_refl) Hbad).
Qed.

Lemma get_missing_not_stored (t : table) (id : Z) :
  In id (database.get_missing_notifications t) -> stored id t = false.
Proof.
  unfold database.get_missing_notifications. intro Hin.
  apply filter_In in Hin. destruct Hin as [_ Hout].
  apply negb_true_iff in Hout.
  apply stored_false_iff. intros r Hr.
  apply not_true_iff_false. intro Heq.
  apply not_true_iff_false in Hout. apply Hout.
  apply existsb_exists. exists r. split; [exact Hr|].
  destruct (NOTIFICATION_ID r) as [i|]; [|discriminate].
  cbn in *. rewrite Z.eqb_sym. exact Heq.
Qed.

(** X6.  When no page of a missing id is one the extraction cannot read,
    [reader.get_missing_notifications] sends one request for each id the
    database reports missing, in increasing order, and for no other id;
    none of the ids it asks for is stored. *)
Theorem get_missing_notifications_requests (w : world)
  (Hsite : forall id k,
             In id (database.get_missing_notifications (db w)) ->
             site e id k <> http 200 other_page) :
  exists w',
    reader.get_missing_notifications e w = (Ret tt, w')
    /\ requests w'
       = requests w ++ database.get_missing_notifications (db w)
    /\ StronglySorted Z.lt (database.get_missing_notifications (db w))
    /\ (forall id, In id (database.get_missing_notifications (db w)) ->
          stored id (db w) = false).
Proof.
  destruct (fetch_each_requests _ w Hsite) as (w' & Hrun & Hreq).
  exists w'. unfold reader.get_missing_notifications.
  split; [exact Hrun|]. split; [exact Hreq|].
  split; [apply get_missing_notifications_sorted|].
  intros id. apply get_missing_not_stored.
Qed.

Lemma firstn_count_from (k n : nat) (start : Z) :
  (k <= n)%nat -> firstn k (count_from start n) = count_from start k.
Proof.
  revert n start. induction k as [|k IH]; intros n start Hk;
    [reflexivity|].
  destruct n as [|n]; [lia|]. cbn [count_from firstn].
  rewrite IH by lia. reflexivity.
Qed.

(** The loop of [get_notifications] requests a prefix of its list, in
    order; it stops early only at a page the extraction cannot read. *)
Lemma crawl_prefix (l : list Z) (w : world) :
  exists k,
    (k <= List.length l)%nat
    /\ requests (snd (reader.crawl e l w)) = requests w ++ firstn k l
    /\ ((fst (reader.crawl e l w) = Ret tt /\ k = List.length l)
        \/ (fst (reader.crawl e l w) = Raise IndexError
            /\ exists id,
                 nth_error l (Nat.pred k) = Some id
                 /\ (0 < k)%nat)).
Proof.
  revert w. induction l as [|id l IH]; intro w; cbn [reader.crawl].
  - exists 0%nat. cbn. rewrite app_nil_r. split; [lia|].
    split; [reflexivity|]. left. split; reflexivity.
  - unfold bind.
    destruct (get_notification_effect id w) as (Hreq & _ & Hres).
    destruct (reader.get_notification e id false w) as [r w1].
    cbn [fst snd] in *.
    destruct Hres as [[d ->]|[-> _]].
    + destruct (IH w1) as (k & Hk & Hreq' & Hend).
      exists (S k). cbn [List.length firstn]. split; [lia|].
      split; [rewrite Hreq', Hreq, <- app_assoc; reflexivity|].
      destruct Hend as [[Hret ->]|[Hraise (id' & Hnth & Hpos)]].
      * left. split; [exact Hret|reflexivity].
      * right. split; [exact Hraise|]. exists id'. split; [|lia].
        destruct k as [|k]; [lia|]. exact Hnth.
    + exists 1%nat. cbn [List.length firstn fst snd]. split; [lia|].
      split; [exact Hreq|]. right. split; [reflexivity|].
      exists id. split; [reflexivity|lia].
Qed.

(** X7.  Whatever the site answers, [get_notifications] requests
    consecutive ids in increasing order, starting right after the last
    stored id (after [notification_initial_id] when that id is -1) and at
    most [limit] of them; when it ends on the limit it has requested
    all [limit] of them. *)
Theorem get_notifications_requests_a_prefix
  (limit : Z) (w : world) (m : Z) (d : value)
  (rows : list (option Z * value))
  (Hlast : database.get_last_notification (db w)
           = database.fetched ((Some m, d) :: rows)) :
  let first :=
    (if m =? -1 then reader.notification_initial_id else m) + 1 in
  exists k,
    (k <= Z.to_nat limit)%nat
    /\ requests (snd (reader.get_notifications e limit w))
       = requests w ++ count_from first k
    /\ (fst (reader.get_notifications e limit w)
        = Ret reader.limit_parameter_reached ->
        k = Z.to_nat limit).
Proof.
  intro first. unfold reader.get_notifications. rewrite Hlast.
  assert (Hsel : match Some m with
                 | Some (-1) => Some reader.notification_initial_id
                 | _ => Some m
                 end
                 = Some (if m =? -1 then reader.notification_initial_id else m)).
  { destruct m as [|p|p]; try reflexivity. destruct p; reflexivity. }
  rewrite Hsel.
  set (last := if m =? -1 then reader.notification_initial_id else m) in *.
  unfold range.
  replace (Z.to_nat (last + 1 + limit - (last + 1))) with (Z.to_nat limit)
    by lia.
  destruct (crawl_prefix (count_from (last + 1) (Z.to_nat limit)) w)
    as (k & Hk & Hreq & Hend).
  assert (Hlen : forall a n, List.length (count_from a n) = n).
  { intros a n. revert a. induction n as [|n IHn]; intro a;
      cbn [count_from List.length]; [reflexivity|].
    rewrite IHn. reflexivity. }
  rewrite Hlen in *. rewrite firstn_count_from in Hreq by exact Hk.
  exists k. split; [exact Hk|].
  unfold except_StopIteration, bind.
  destruct (reader.crawl e (count_from (last + 1) (Z.to_nat limit)) w)
    as [[[]|ex|b] w1]; cbn [fst snd] in *.
  - split; [exact Hreq|]. intros _.
    destruct Hend as [[_ ->]|[Hraise _]]; [reflexivity|discriminate].
  - destruct Hend as [[Hret _]|[Hraise _]]; [discriminate|].
    injection Hraise as ->. split; [exact Hreq|]. discriminate.
  - destruct Hend as [[Hret _]|[Hraise _]]; discriminate.
Qed.

End FetchingLoops.

Lemma get_missing_notifications_requests_witness :
  exists w',
    reader.get_missing_notifications (env_of site_101_110) world_5_9 = (Ret tt, w')
    /\ requests w'
       = requests world_5_9 ++ database.get_missing_notifications (db world_5_9)
    /\ StronglySorted Z.lt (database.get_missing_notifications (db world_5_9))
    /\ (forall id, In id (database.get_missing_notifications (db world_5_9)) ->
          stored id (db world_5_9) = false).
Proof.
  apply (get_missing_notifications_requests (env_of site_101_110) world_5_9).
  intros id k _. unfold env_of, site_101_110. cbn [site].
  destruct ((101 <=? id) && (id <=? 110)); discriminate.
Defined.

Lemma get_notifications_requests_a_prefix_witness :
  let first :=
    (if 100 =? -1 then reader.notification_initial_id else 100) + 1 in
  exists k,
    (k <= Z.to_nat 20)%nat
    /\ requests (snd (reader.get_notifications (env_of site_101_110) 20 world_100))
       = requests world_100 ++ count_from first k
    /\ (fst (reader.get_notifications (env_of site_101_110) 20 world_100)
        = Ret reader.limit_parameter_reached ->
        k = Z.to_nat 20).
Proof.
  apply (get_notifications_requests_a_prefix (env_of site_101_110) 20
           world_100 100 (VStr "01.12.2022 18:05:11") []).
  reflexivity.
Defined.

(** ** The refresher: the progress log and the retry loop *)

Section RefreshLog.

Variable e : env.

Lemma pending_bound_step (i : Z) :
  0 <= i -> ((0 <? i) && (i mod 50 =? 0)) = false ->
  pending_bound i + 1 <= pending_bound (i + 1).
Proof.
  intros Hi Hflush. unfold pending_bound.
  destruct (Z.leb_spec (i + 1) 0) as [H|_]; [lia|].
  replace (i + 1 - 1) with i by lia.
  destruct (Z.leb_spec i 0) as [H0|Hpos].
  - assert (i = 0) by lia. subst. cbn. lia.
  - apply andb_false_iff in Hflush. destruct Hflush as [H|Hm]; [zbool|].
    apply Z.eqb_neq in Hm.
    pose proof (Z.mod_pos_bound i 50 ltac:(lia)) as Hb.
    pose proof (Z.div_mod i 50 ltac:(lia)) as Hd.
    assert (E : (i - 1) mod 50 = i mod 50 - 1).
    { symmetry. apply (Z.mod_unique (i - 1) 50 (i / 50)); lia. }
    lia.
Qed.

Lemma pending_bound_le (i : Z) : 0 <= pending_bound i <= 50.
Proof.
  unfold pending_bound. destruct (i <=? 0); [lia|].
  pose proof (Z.mod_pos_bound (i - 1) 50 ltac:(lia)). lia.
Qed.

(** The loop of the refresh over ids whose fetch is never a request
    error: one request and one [.;] line per id; the lines written to
    the file followed by the lines still in memory are all the lines, in
    order. *)
Lemma refresh_log (fuel : nat) (js : list Z) :
  forall (i : Z) (log : list log_line) (w : world),
    (forall j k, In j js ->
       site e j k <> request_exception
       /\ site e j k <> http 200 other_page) ->
    0 <= i ->
    Z.of_nat (List.length log) <= pending_bound i ->
    exists pending w',
      reader.refresh e fuel (enumerate_from i js) log w = (Ret pending, w')
      /\ requests w' = requests w ++ js
      /\ log_txt w' ++ pending
         = log_txt w ++ log ++ map dot_line (enumerate_from i js)
      /\ Z.of_nat (List.length pending) <= 50.
Proof.
  induction js as [|j js IH]; intros i log w Hsite Hi Hlog.
  - exists log, w. cbn. rewrite !app_nil_r. repeat split.
    pose proof (pending_bound_le i). lia.
  - cbn [enumerate_from reader.refresh]. unfold bind at 1.
    destruct (Hsite j (count_requests j (requests w)) (or_introl eq_refl))
      as [Hne Hreadable].
    assert (Hfetch : exists d w1,
               reader.get_notification e j false w = (Ret (PyDict d), w1)
               /\ requests w1 = requests w ++ [j]
               /\ log_txt w1 = log_txt w
               /\ value_eqb (dict_get "error" (VStr "") d)
                    (VStr "request error") = false).
    { rewrite get_notification_cases.
      destruct (site e j (count_requests j (requests w)))
        as [|status_code content]; [congruence|].
      destruct (Z.eqb_spec status_code 200) as [->|_].
      - destruct content as [f|]; [|congruence].
        eexists. eexists. repeat split.
      - eexists. eexists. repeat split. }
    destruct Hfetch as (d & w1 & -> & Hreq1 & Hlog1 & Hnoerr).
    unfold bind at 1. cbn [reader.is_request_error]. unfold ret at 1.
    rewrite Hnoerr. unfold bind at 1. unfold ret at 1.
    assert (Hsite' : forall j' k, In j' js ->
              site e j' k <> request_exception
              /\ site e j' k <> http 200 other_page)
      by (intros; apply Hsite; right; assumption).
    destruct ((0 <? i) && (i mod 50 =? 0)) eqn:Hflush.
    + unfold bind at 1. unfold reader.append_log at 1. unfold bind at 1.
      unfold ret at 1.
      destruct (IH (i + 1) []
                  (mkworld (db w1) (requests w1)
                     (log_txt w1 ++ log ++ [mklog i j ".;"])))
        as (pending & w' & Hrun & Hreq & Hlines & Hbound);
        [exact Hsite'|lia| |].
      { cbn [List.length]. pose proof (pending_bound_le (i + 1)). lia. }
      exists pending, w'. split; [exact Hrun|].
      cbn [requests log_txt] in Hreq, Hlines.
      split; [rewrite Hreq, Hreq1, <- app_assoc; reflexivity|].
      split; [|exact Hbound].
      rewrite Hlines, Hlog1. cbn [map app dot_line fst snd].
      rewrite <- !app_assoc. reflexivity.
    + unfold bind at 1. unfold ret at 1.
      destruct (IH (i + 1) (log ++ [mklog i j ".;"]) w1)
        as (pending & w' & Hrun & Hreq & Hlines & Hbound);
        [exact Hsite'|lia| |].
      { rewrite length_app. cbn [List.length].
        pose proof (pending_bound_step i Hi Hflush). lia. }
      exists pending, w'. split; [exact Hrun|].
      split; [rewrite Hreq, Hreq1, <- app_assoc; reflexivity|].
      split; [|exact Hbound].
      rewrite Hlines, Hlog1. cbn [map app dot_line fst snd].
      rewrite <- !app_assoc. reflexivity.
Qed.

(** X8.  A refresh over an explicit range whose fetches are never a
    request error and never meet a page the extraction cannot read
    sends one request per id of the range, in increasing order, and
    builds one log line per id.  The lines written to log.txt followed
    by the lines still in memory at the end are exactly those lines in
    order, and at most 50 lines are still in memory. *)
Theorem refresh_keeps_every_log_line
  (fuel : nat) (start stop : Z) (w : world)
  (Hstart : start <> 0) (Hstop : stop <> 0)
  (Hsite : forall j k, In j (range start stop) ->
             site e j k <> request_exception
             /\ site e j k <> http 200 other_page) :
  exists pending w',
    reader._refresh_all_notifications e fuel (Some start) (Some stop) w
    = (Ret pending, w')
    /\ requests w' = requests w ++ range start stop
    /\ log_txt w' ++ pending
       = log_txt w ++ map dot_line (enumerate_from 0 (range start stop))
    /\ (List.length pending <= 50)%nat.
Proof.
  destruct (refresh_log fuel (range start stop) 0 [] w Hsite)
    as (pending & w' & Hrun & Hreq & Hlines & Hbound);
    [lia|cbn; lia|].
  exists pending, w'.
  unfold reader._refresh_all_notifications.
  destruct (database.min_id_and_count (db w)) as [min_id count].
  assert (Ht : forall z, z <> 0 -> reader.truthy (Some z) = Some z)
    by (intros [|p|p] Hz; [contradiction|reflexivity|reflexivity]).
  rewrite (Ht start Hstart), (Ht stop Hstop).
  unfold bind, ret. rewrite Hrun.
  split; [reflexivity|]. split; [exact Hreq|].
  split; [exact Hlines|lia].
Qed.

End RefreshLog.

Lemma refresh_keeps_every_log_line_witness :
  exists pending w',
    reader._refresh_all_notifications (env_of site_101_110) 1
      (Some 99) (Some 160) world_100
    = (Ret pending, w')
    /\ requests w' = requests world_100 ++ range 99 160
    /\ log_txt w' ++ pending
       = log_txt world_100 ++ map dot_line (enumerate_from 0 (range 99 160))
    /\ (List.length pending <= 50)%nat.
Proof.
  apply (refresh_keeps_every_log_line (env_of site_101_110) 1 99 160 world_100).
  - discriminate.
  - discriminate.
  - intros j k _. unfold env_of, site_101_110. cbn [site].
    destruct ((101 <=? j) && (j <=? 110)); split; discriminate.
Defined.

Section RetryLoop.

Variable e : env.
Hypothesis Hkr : kr_bound e = true.





End RetryLoop.


(** ** The enrichment: candidates, one record, the batch *)

Section Candidates.

Lemma id_gtb_asym (a b : option Z) : id_gtb a b = true -> id_gtb b a = false.
Proof.
  destruct a as [x|], b as [y|]; cbn; try reflexivity; try discriminate.
  intro H. zbool.
Qed.

Lemma at_least_as_new_trans (a b c : row) :
  at_least_as_new a b -> at_least_as_new b c -> at_least_as_new a c.
Proof.
  unfold at_least_as_new.
  destruct (NOTIFICATION_ID a) as [x|], (NOTIFICATION_ID b) as [y|],
    (NOTIFICATION_ID c) as [z|]; cbn; try reflexivity; try discriminate.
  intros H1 H2. zbool.
Qed.

Lemma insert_desc_sorted (r : row) (l : list row) :
  StronglySorted at_least_as_new l ->
  StronglySorted at_least_as_new (insert_desc r l).
Proof.
  induction 1 as [|h l Hl IH Hh]; cbn [insert_desc].
  - constructor; constructor.
  - destruct (id_gtb (NOTIFICATION_ID h) (NOTIFICATION_ID r)) eqn:E.
    + constructor; [exact IH|].
      apply (Permutation_Forall (Permutation_sym (insert_desc_perm r l))).
      constructor; [|exact Hh].
      unfold at_least_as_new. apply id_gtb_asym. exact E.
    + constructor; [constructor; assumption|].
      constructor; [exact E|].
      rewrite Forall_forall in *. intros x Hx.
      apply (at_least_as_new_trans r h x); [exact E|exact (Hh x Hx)].
Qed.

Lemma order_by_id_desc_sorted (l : list row) :
  StronglySorted at_least_as_new (order_by_id_desc l).
Proof.
  induction l as [|r l IH]; cbn [order_by_id_desc]; [constructor|].
  apply insert_desc_sorted. exact IH.
Qed.

Lemma sorted_app_inv {A} (R : A -> A -> Prop) (l1 l2 : list A) :
  StronglySorted R (l1 ++ l2) ->
  StronglySorted R l1
  /\ forall a b, In a l1 -> In b l2 -> R a b.
Proof.
  induction l1 as [|x l1 IH]; cbn [app]; intro H.
  - split; [constructor|intros a b []].
  - inversion H as [|? ? Hs Hx]; subst.
    destruct (IH Hs) as [Hs1 Hcross]. split.
    + constructor; [exact Hs1|].
      rewrite Forall_forall in *. intros y Hy. apply Hx.
      apply in_or_app. left. exact Hy.
    + intros a b [<-|Ha] Hb; [|exact (Hcross a b Ha Hb)].
      rewrite Forall_forall in Hx. apply Hx. apply in_or_app. right. exact Hb.
Qed.

(** X10.  For a batch limit within 64 bits the query of
    [save_notification_summaries] runs, and the rows it reads are rows
    of the table without a summary, ordered from the newest id down, no
    more than the batch limit when that is not negative; every candidate
    left out is no newer than any row read. *)
Theorem missing_summaries_newest_first (top_n : Z) (t : table)
  (Hn : int64 top_n = true) :
  exists batch,
    database.missing_summaries top_n t = Ret batch
    /\ StronglySorted at_least_as_new batch
    /\ (forall r, In r batch ->
          In r t /\ is_null (EXPLANATION_SUMMARY r) = true)
    /\ (0 <= top_n ->
        Z.of_nat (List.length batch)
        = Z.min top_n (Z.of_nat (List.length (candidates t))))
    /\ exists rest,
         Permutation (batch ++ rest) (candidates t)
         /\ forall a b, In a batch -> In b rest -> at_least_as_new a b.
Proof.
  unfold database.missing_summaries, sql_limit. rewrite Hn.
  fold (candidates t). eexists. split; [reflexivity|].
  pose proof (order_by_id_desc_sorted (candidates t)) as Hsorted.
  pose proof (order_by_id_desc_perm (candidates t)) as Hperm.
  set (sorted := order_by_id_desc (candidates t)) in *.
  assert (Hcand : forall r, In r sorted ->
                    In r t /\ is_null (EXPLANATION_SUMMARY r) = true).
  { intros r Hr. apply (Permutation_in _ Hperm) in Hr.
    unfold candidates in Hr. apply filter_In in Hr. exact Hr. }
  destruct (Z.ltb_spec top_n 0) as [Hneg|Hpos].
  - split; [exact Hsorted|]. split; [exact Hcand|]. split; [lia|].
    exists []. rewrite app_nil_r. split; [exact Hperm|intros a b _ []].
  - assert (Hin : forall r, In r (firstn (Z.to_nat top_n) sorted) -> In r sorted).
    { intros r Hr. rewrite <- (firstn_skipn (Z.to_nat top_n) sorted).
      apply in_or_app. left. exact Hr. }
    rewrite <- (firstn_skipn (Z.to_nat top_n) sorted) in Hsorted, Hperm.
    destruct (sorted_app_inv _ _ _ Hsorted) as [Hfirst Hcross].
    split; [exact Hfirst|]. split; [|split].
    + intros r Hr. apply Hcand. exact (Hin r Hr).
    + intros _. rewrite length_firstn.
      rewrite <- (Permutation_length (order_by_id_desc_perm (candidates t))).
      fold sorted. lia.
    + exists (skipn (Z.to_nat top_n) sorted). split; [exact Hperm|exact Hcross].
Qed.

End Candidates.

Lemma missing_summaries_newest_first_witness :
  exists batch,
    database.missing_summaries 2
      [a_row 5; a_summarized_row 7; a_row 9; a_row 6]
    = Ret batch
    /\ StronglySorted at_least_as_new batch
    /\ (forall r, In r batch ->
          In r [a_row 5; a_summarized_row 7; a_row 9; a_row 6]
          /\ is_null (EXPLANATION_SUMMARY r) = true)
    /\ (0 <= 2 ->
        Z.of_nat (List.length batch)
        = Z.min 2
            (Z.of_nat
               (List.length
                  (candidates [a_row 5; a_summarized_row 7; a_row 9; a_row 6]))))
    /\ exists rest,
         Permutation (batch ++ rest)
           (candidates [a_row 5; a_summarized_row 7; a_row 9; a_row 6])
         /\ forall a b, In a batch -> In b rest -> at_least_as_new a b.
Proof.
  apply (missing_summaries_newest_first 2
           [a_row 5; a_summarized_row 7; a_row 9; a_row 6]).
  reflexivity.
Defined.

(** The batch of the witness, and a limit that sqlite refuses. *)
Example missing_summaries_of_the_witness :
  database.missing_summaries 2 [a_row 5; a_summarized_row 7; a_row 9; a_row 6]
  = Ret [a_row 9; a_row 6]
  /\ database.missing_summaries 9223372036854775808
       [a_row 5; a_summarized_row 7; a_row 9; a_row 6]
     = Raise IntegrityError.
Proof. split; reflexivity. Qed.

Section OneRecord.

Variable e : env.

(** [save_notification_summary] by what the table holds for the id. *)
Lemma save_notification_summary_run (n : Z) (w : world) :
  reader.save_notification_summary e (Some n) w =
  match rows_of n (db w) with
  | [] => (Raise IndexError, mkworld (db w) (requests w) (log_txt w))
  | first :: _ =>
      match summary_written e first with
      | None =>
          (Ret reader.none_zero, mkworld (db w) (requests w) (log_txt w))
      | Some v =>
          (Ret (reader.from_update database.ok),
           mkworld (summarized n v (db w)) (requests w) (log_txt w))
      end
  end.
Proof.
  unfold reader.save_notification_summary, bind, on_db.
  cbn [database.get_notification]. fold (rows_of n (db w)).
  destruct (rows_of n (db w)) as [|first rest] eqn:Hrows; [reflexivity|].
  assert (Hbind : database.binds_id (Some n) (db w) = true).
  { assert (Hin : In first (rows_of n (db w)))
      by (rewrite Hrows; left; reflexivity).
    unfold rows_of in Hin. apply filter_In in Hin.
    cbn [database.binds_id]. apply orb_true_iff. right.
    apply existsb_exists. exists first. exact Hin. }
  unfold try_except, bind, reader.summarize_explanation, summary_written.
  destruct (EXPLANATIONS first) as [| |s]; try reflexivity.
  destruct (chat_completion e (substring 0 reader.API_MAX_CONTEXT_LENGTH s))
    as [[summary tokens]|]; [|reflexivity].
  cbn [ret db requests log_txt]. unfold ret.
  rewrite update_notification_bound by (first [reflexivity|exact Hbind]).
  reflexivity.
Qed.

(** X11.  When the service gives no summary for the explanation of the
    first row of an id (the call fails or times out, or the explanation
    is not a text), [save_notification_summary] returns [(None, 0)] and
    leaves the database, like everything else, as it was. *)
Theorem failed_summary_changes_nothing
  (n : Z) (w : world) (first : row) (others : list row)
  (Hrows : rows_of n (db w) = first :: others)
  (Hfail : summary_written e first = None) :
  reader.save_notification_summary e (Some n) w = (Ret reader.none_zero, w).
Proof.
  rewrite save_notification_summary_run, Hrows, Hfail.
  destruct w; reflexivity.
Qed.

(** X12.  When the service gives a summary for the explanation of the
    first row of an id, [save_notification_summary] reports the success
    of the update and every row of that id, and no other row, carries
    [<summary>;<tokens>] afterwards. *)
Theorem summary_is_written_to_every_row_of_the_id
  (n : Z) (w : world) (first : row) (others : list row)
  (s summary : string) (tokens : Z)
  (Hrows : rows_of n (db w) = first :: others)
  (Htext : EXPLANATIONS first = VStr s)
  (Hanswer : chat_completion e (substring 0 reader.API_MAX_CONTEXT_LENGTH s)
             = Some (summary, tokens)) :
  let v := VStr (summary ++ ";" ++ str_of_Z tokens)%string in
  exists w',
    reader.save_notification_summary e (Some n) w
    = (Ret (reader.from_update database.ok), w')
    /\ requests w' = requests w /\ log_txt w' = log_txt w
    /\ List.length (db w') = List.length (db w)
    /\ forall i r, nth_error (db w) i = Some r ->
         nth_error (db w') i
         = Some (if sql_eq (NOTIFICATION_ID r) (Some n)
                 then with_summary v r else r).
Proof.
  intro v. rewrite save_notification_summary_run, Hrows.
  unfold summary_written. rewrite Htext, Hanswer. fold v.
  eexists. split; [reflexivity|]. cbn [db requests log_txt].
  split; [reflexivity|]. split; [reflexivity|].
  unfold summarized. split; [apply length_map|].
  intros i r Hi. rewrite nth_error_map, Hi. reflexivity.
Qed.

End OneRecord.

Lemma failed_summary_changes_nothing_witness :
  reader.save_notification_summary env_service_down (Some 6) world_5_6_7
  = (Ret reader.none_zero, world_5_6_7).
Proof.
  apply (failed_summary_changes_nothing env_service_down 6 world_5_6_7
           (a_row 6) []); reflexivity.
Defined.

Lemma summary_is_written_to_every_row_of_the_id_witness :
  let v := VStr ("ozet" ++ ";" ++ str_of_Z 12)%string in
  exists w',
    reader.save_notification_summary (env_of site_101_110) (Some 6)
      (mkworld [a_row 6; a_row 5; a_summarized_row 6] [] [])
    = (Ret (reader.from_update database.ok), w')
    /\ requests w' = requests (mkworld [a_row 6; a_row 5; a_summarized_row 6] [] [])
    /\ log_txt w' = log_txt (mkworld [a_row 6; a_row 5; a_summarized_row 6] [] [])
    /\ List.length (db w')
       = List.length (db (mkworld [a_row 6; a_row 5; a_summarized_row 6] [] []))
    /\ forall i r,
         nth_error (db (mkworld [a_row 6; a_row 5; a_summarized_row 6] [] [])) i
         = Some r ->
         nth_error (db w') i
         = Some (if sql_eq (NOTIFICATION_ID r) (Some 6)
                 then with_summary v r else r).
Proof.
  apply (summary_is_written_to_every_row_of_the_id (env_of site_101_110) 6
           (mkworld [a_row 6; a_row 5; a_summarized_row 6] [] [])
           (a_row 6) [a_summarized_row 6]
           "Genel Kurul Toplanti Sonucu" "ozet" 12); reflexivity.
Defined.

Section BestEffort.

Variable e : env.
Variable t0 : table.

Hypothesis Hids :
  forall r, In r t0 -> is_null (EXPLANATION_SUMMARY r) = true ->
    exists n, NOTIFICATION_ID r = Some n /\ copies n t0 = 1%nat.

Lemma summary_written_enriched_in (done : list Z) (r : row) :
  summary_written e (enriched_in e done r) = summary_written e r.
Proof.
  unfold summary_written at 1. rewrite EXPLANATIONS_enriched_in.
  reflexivity.
Qed.

Lemma rows_of_enriched_in (done : list Z) (n : Z) :
  rows_of n (map (enriched_in e done) t0)
  = map (enriched_in e done) (rows_of n t0).
Proof.
  unfold rows_of. apply filter_map_commute.
  intro x. rewrite NOTIFICATION_ID_enriched_in. reflexivity.
Qed.

(** One turn of the batch on a candidate, whatever the service does. *)
Lemma best_effort_step (done : list Z) (w : world) (r0 : row) (n : Z) :
  In r0 t0 -> NOTIFICATION_ID r0 = Some n -> copies n t0 = 1%nat ->
  is_null (EXPLANATION_SUMMARY r0) = true ->
  db w = map (enriched_in e done) t0 ->
  exists ret_,
    reader.save_notification_summary e (Some n) w
    = (Ret ret_,
       mkworld (map (enriched_in e (n :: done)) t0) (requests w) (log_txt w))
    /\ reader.first_is_1 ret_ = written e r0.
Proof.
  intros Hin Hid Hone Hnull Hdb.
  destruct (summary_written e r0) as [v|] eqn:Hw.
  - exists (reader.from_update database.ok). split.
    + exact (save_notification_summary_step e t0 done w r0 n v
               Hin Hid Hone Hnull Hw Hdb).
    + unfold written. rewrite Hw. reflexivity.
  - exists reader.none_zero. split.
    + rewrite save_notification_summary_run, Hdb, rows_of_enriched_in.
      unfold rows_of.
      rewrite (the_row_of_id n t0 r0 Hone Hin Hid). cbn [map].
      rewrite summary_written_enriched_in, Hw.
      f_equal. f_equal. apply map_ext_in. intros r Hr.
      destruct (sql_eq (NOTIFICATION_ID r) (Some n)) eqn:En.
      * assert (Hr0 : In r [r0]).
        { rewrite <- (the_row_of_id n t0 r0 Hone Hin Hid).
          apply filter_In. split; assumption. }
        destruct Hr0 as [<-|[]].
        unfold enriched_in. rewrite Hid, Hw. reflexivity.
      * symmetry. apply enriched_in_other. exact En.
    + unfold written. rewrite Hw. reflexivity.
Qed.

(** The loop over at most a hundred candidates always runs to its end. *)
Lemma summarize_each_best_effort (l : list row) :
  forall (i : Z) (done : list Z) (w : world),
    (forall r, In r l -> In r t0 /\ is_null (EXPLANATION_SUMMARY r) = true) ->
    i + Z.of_nat (List.length l) <= 100 ->
    db w = map (enriched_in e done) t0 ->
    exists done',
      reader.summarize_each e (enumerate_from i (map NOTIFICATION_ID l)) w
      = (Ret (map (written e) l),
         mkworld (map (enriched_in e done') t0) (requests w) (log_txt w))
      /\ forall k, In k done' <-> In k done \/ In k (ids l).
Proof.
  induction l as [|r l IH]; intros i done w Hl Hfew Hdb.
  - exists done. cbn. split.
    + unfold ret. rewrite <- Hdb. destruct w; reflexivity.
    + intro k. tauto.
  - destruct (Hl r (or_introl eq_refl)) as [Hin Hnull].
    destruct (Hids r Hin Hnull) as (n & Hid & Hone).
    cbn [map enumerate_from reader.summarize_each List.length ids] in *.
    rewrite Hid. unfold bind at 1.
    destruct (best_effort_step done w r n Hin Hid Hone Hnull Hdb)
      as (ret_ & -> & Hmark).
    rewrite no_statistics_below_100 by lia.
    unfold bind at 1. unfold ret at 1.
    destruct (IH (i + 1) (n :: done)
                (mkworld (map (enriched_in e (n :: done)) t0)
                   (requests w) (log_txt w)))
      as (done' & Hrun & Hdone').
    { intros r' Hr'. apply Hl. right. exact Hr'. }
    { lia. }
    { reflexivity. }
    exists done'. unfold bind. rewrite Hrun. cbn [db requests log_txt].
    unfold ret. rewrite Hmark. split; [reflexivity|].
    intro k. rewrite Hdone'. cbn [In]. tauto.
Qed.

End BestEffort.

Lemma In_missing_summaries (top_n : Z) (t : table) (batch : list row)
  (r : row) :
  database.missing_summaries top_n t = Ret batch ->
  In r batch ->
  In r t /\ is_null (EXPLANATION_SUMMARY r) = true.
Proof.
  unfold database.missing_summaries, sql_limit. intros Hbatch Hr.
  destruct (int64 top_n); [|discriminate].
  injection Hbatch as <-.
  assert (Hs : In r (order_by_id_desc
                       (filter (fun r => is_null (EXPLANATION_SUMMARY r)) t))).
  { destruct (top_n <? 0); [exact Hr|].
    rewrite <- (firstn_skipn (Z.to_nat top_n) (order_by_id_desc _)).
    apply in_or_app. left. exact Hr. }
  apply (Permutation_in _ (order_by_id_desc_perm _)) in Hs.
  apply filter_In in Hs. exact Hs.
Qed.

Lemma enriched_in_ext (e : env) (done done' : list Z) (r : row) :
  (forall k, In k done <-> In k done') ->
  enriched_in e done r = enriched_in e done' r.
Proof.
  intro Hsame. unfold enriched_in.
  destruct (NOTIFICATION_ID r) as [n|]; [|reflexivity].
  destruct (summary_written e r); [|reflexivity].
  assert (E : existsb (Z.eqb n) done = existsb (Z.eqb n) done').
  { destruct (existsb (Z.eqb n) done) eqn:E1;
      destruct (existsb (Z.eqb n) done') eqn:E2; try reflexivity.
    - apply existsb_eqb_In, Hsame, existsb_eqb_In in E1. congruence.
    - apply existsb_eqb_In, Hsame, existsb_eqb_In in E2. congruence. }
  rewrite E. reflexivity.
Qed.

(** X13.  When the query of the batch runs (its limit is an int within
    64 bits) and reads at most a hundred candidates, whose ids no other
    row carries, the batch always runs to its end, whatever the
    summarization service does: the marks it prints tell, candidate by
    candidate from the newest id down, whether a summary was written;
    afterwards the rows of the batch for which there was a summary carry
    it and every other row is as before. *)
Theorem save_notification_summaries_best_effort
  (e : env) (top_n : Z) (w : world) (batch : list row)
  (Hn : int64 top_n = true)
  (Hids : forall r, In r (db w) -> is_null (EXPLANATION_SUMMARY r) = true ->
            exists n, NOTIFICATION_ID r = Some n /\ copies n (db w) = 1%nat)
  (Hbatch : database.missing_summaries top_n (db w) = Ret batch)
  (Hfew : (List.length batch <= 100)%nat) :
  reader.save_notification_summaries e top_n w
  = (Ret (map (written e) batch),
     mkworld (map (enriched_in e (ids batch)) (db w)) (requests w) (log_txt w)).
Proof.
  unfold reader.save_notification_summaries. rewrite Hbatch.
  destruct (summarize_each_best_effort e (db w) Hids batch 0 [] w)
    as (done' & Hrun & Hdone').
  - intros r Hr. exact (In_missing_summaries top_n (db w) batch r Hbatch Hr).
  - lia.
  - rewrite <- (map_id (db w)) at 1. apply map_ext.
    intro r. symmetry. apply enriched_in_nil.
  - rewrite Hrun. f_equal. f_equal. apply map_ext. intro r.
    apply enriched_in_ext. intro k. rewrite Hdone'. cbn [In]. tauto.
Qed.

Lemma save_notification_summaries_best_effort_witness :
  let batch := [a_row_without_explanation 6; a_row 5] in
  reader.save_notification_summaries (env_of site_101_110) 100
    (mkworld [a_row 5; a_row_without_explanation 6; a_summarized_row 7] [] [])
  = (Ret (map (written (env_of site_101_110)) batch),
     mkworld
       (map (enriched_in (env_of site_101_110) (ids batch))
          (db (mkworld [a_row 5; a_row_without_explanation 6;
                        a_summarized_row 7] [] [])))
       (requests (mkworld [a_row 5; a_row_without_explanation 6;
                           a_summarized_row 7] [] []))
       (log_txt (mkworld [a_row 5; a_row_without_explanation 6;
                          a_summarized_row 7] [] []))).
Proof.
  apply (save_notification_summaries_best_effort (env_of site_101_110) 100
           (mkworld [a_row 5; a_row_without_explanation 6; a_summarized_row 7]
              [] [])
           [a_row_without_explanation 6; a_row 5]).
  - reflexivity.
  - intros r [<-|[<-|[<-|[]]]] Hnull.
    + exists 5. split; reflexivity.
    + exists 6. split; reflexivity.
    + discriminate Hnull.
  - reflexivity.
  - cbn. lia.
Defined.

(** The batch of the witness: the record without an explanation is
    skipped, the other candidate gets its summary. *)
Example best_effort_batch_runs :
  reader.save_notification_summaries (env_of site_101_110) 100
    (mkworld [a_row 5; a_row_without_explanation 6; a_summarized_row 7] [] [])
  = (Ret [false; true],
     mkworld [with_summary (VStr "ozet;12") (a_row 5);
              a_row_without_explanation 6; a_summarized_row 7] [] []).
Proof. reflexivity. Qed.

(** ** The company table *)

Section Companies.

Lemma companies_of_without (code : string) (t : KAP_COMPANIES.table) :
  companies_of code (without_company code t) = [].
Proof.
  unfold companies_of, without_company.
  induction t as [|r t IH]; [reflexivity|]. cbn [filter].
  destruct (code_is code r) eqn:E; cbn [negb filter]; rewrite ?E; exact IH.
Qed.

Lemma code_is_other (a b : string) (r : KAP_COMPANIES.row) :
  a <> b -> code_is a r = true -> code_is b r = false.
Proof.
  unfold code_is. destruct (KAP_COMPANIES.CODE r) as [c|]; [|discriminate].
  intros Hab Ha. apply String.eqb_eq in Ha. subst c.
  apply String.eqb_neq. exact Hab.
Qed.

Lemma companies_of_without_other (a b : string) (t : KAP_COMPANIES.table) :
  a <> b -> companies_of b (without_company a t) = companies_of b t.
Proof.
  intro Hab. unfold companies_of, without_company.
  induction t as [|r t IH]; [reflexivity|]. cbn [filter].
  destruct (code_is a r) eqn:Ea; cbn [negb filter].
  - rewrite (code_is_other a b r Hab Ea). exact IH.
  - destruct (code_is b r); rewrite IH; reflexivity.
Qed.

Lemma companies_of_app (code : string) (t1 t2 : KAP_COMPANIES.table) :
  companies_of code (t1 ++ t2) = companies_of code t1 ++ companies_of code t2.
Proof. unfold companies_of. apply filter_app. Qed.

(** What [save_company] does with eleven values. *)
Lemma save_company_eleven
  (code : value) (rest : list value) (new : KAP_COMPANIES.row)
  (t : KAP_COMPANIES.table) :
  has_char "000" (py_str code) = false ->
  has_char "'" (py_str code) = false ->
  company_row_of (code :: rest) = Some new ->
  database.save_company (code :: rest) t
  = (Ret database.company_saved, without_company (py_str code) t ++ [new]).
Proof.
  intros Hnul Hquote Hrow.
  unfold database.save_company, try_except, bind, database.delete_company.
  rewrite Hnul, Hquote. fold (without_company (py_str code) t).
  unfold company_row_of in Hrow. unfold database.insert_company.
  destruct rest as [|na [|pr [|ur [|ta [|re [|sc [|em [|we [|ad [|se [|? ?]]]]]]]]]]];
    try discriminate.
  destruct (forallb binds _); [|discriminate].
  injection Hrow as <-. reflexivity.
Qed.


Lemma has_char_last_after (sep : ascii) (s : string) :
  has_char sep (last_after sep s) = false.
Proof.
  induction s as [|c s IH]; cbn [last_after]; [reflexivity|].
  destruct (has_char sep s) eqn:E; [exact IH|].
  destruct (Ascii.eqb c sep) eqn:Ec; [exact E|].
  cbn [has_char]. rewrite Ec, E. reflexivity.
Qed.

Lemma has_char_last_after_other (ch sep : ascii) (s : string) :
  has_char ch s = false -> has_char ch (last_after sep s) = false.
Proof.
  induction s as [|c s IH]; cbn [last_after has_char]; [reflexivity|].
  intro H. apply orb_false_iff in H. destruct H as [Hc Hs].
  destruct (has_char sep s); [exact (IH Hs)|].
  destruct (Ascii.eqb c sep); [exact Hs|].
  cbn [has_char]. rewrite Hc, Hs. reflexivity.
Qed.

Lemma without_company_again (code : string) (t : KAP_COMPANIES.table) :
  without_company code (without_company code t) = without_company code t.
Proof.
  unfold without_company. induction t as [|r t IH]; [reflexivity|].
  cbn [filter]. destruct (code_is code r) eqn:E; cbn [negb filter];
    rewrite ?E; cbn [negb]; rewrite IH; reflexivity.
Qed.

(** What [read_company_detail] does with a page it can read. *)
Lemma read_company_detail_run
  (pages : reader.company_site) (url : string) (f : reader.company_fields)
  (t : KAP_COMPANIES.table) :
  pages url = Ret (reader.company_page f) ->
  has_char "000" (reader.c_code f) = false ->
  has_char "'" (reader.c_code f) = false ->
  exists new,
    company_row_of (reader.company_list f url) = Some new
    /\ KAP_COMPANIES.CODE new = Some (reader.c_code f)
    /\ reader.read_company_detail pages url t
       = (Ret (reader.company_list f url),
          without_company (reader.c_code f) t ++ [new]).
Proof.
  intros Hpage Hnul Hquote.
  eexists. split; [reflexivity|]. split; [reflexivity|].
  unfold reader.read_company_detail. rewrite Hpage.
  unfold bind at 1. unfold database.delete_company at 1.
  cbn [py_str]. rewrite Hnul, Hquote.
  fold (without_company (reader.c_code f) t).
  unfold bind at 1. unfold reader.company_list.
  erewrite save_company_eleven; [|exact Hnul|exact Hquote|reflexivity].
  cbn [py_str]. rewrite without_company_again. reflexivity.
Qed.

(** X15.  On a page it can read, for a code that holds neither a NUL
    character nor a quote,
    [read_company_detail] returns the eleven values it scraped and
    stores them: [get_company] of the code then returns that row, the
    only row of the code.  The province it derives from the address
    holds neither a slash nor a space, and reading the same page again
    leaves the table as it is. *)
Theorem read_company_detail_stores_the_company
  (pages : reader.company_site) (url : string) (f : reader.company_fields)
  (t : KAP_COMPANIES.table)
  (Hpage : pages url = Ret (reader.company_page f))
  (Hnul : has_char "000" (reader.c_code f) = false)
  (Hquote : has_char "'" (reader.c_code f) = false) :
  exists t' new province,
    reader.read_company_detail pages url t
    = (Ret (reader.company_list f url), t')
    /\ company_row_of (reader.company_list f url) = Some new
    /\ database.get_company (VStr (reader.c_code f)) t' = (Ret (Some new), t')
    /\ companies_of (reader.c_code f) t' = [new]
    /\ KAP_COMPANIES.PROVINCE new = Some province
    /\ has_char "/" province = false
    /\ has_char " " province = false
    /\ reader.read_company_detail pages url t'
       = (Ret (reader.company_list f url), t').
Proof.
  destruct (read_company_detail_run pages url f t Hpage Hnul Hquote)
    as (new & Hrow & Hcode & Hrun).
  assert (Hnew : code_is (reader.c_code f) new = true).
  { unfold code_is. rewrite Hcode. apply String.eqb_refl. }
  assert (Hrows : companies_of (reader.c_code f)
                    (without_company (reader.c_code f) t ++ [new]) = [new]).
  { rewrite companies_of_app, companies_of_without.
    unfold companies_of. cbn [filter app]. rewrite Hnew. reflexivity. }
  exists (without_company (reader.c_code f) t ++ [new]), new,
    (last_after " " (last_after "/" (reader.c_address f))).
  split; [exact Hrun|]. split; [exact Hrow|]. split; [|split; [exact Hrows|]].
  - unfold database.get_company. cbn [py_str]. rewrite Hnul, Hquote.
    fold (companies_of (reader.c_code f)
            (without_company (reader.c_code f) t ++ [new])).
    rewrite Hrows. reflexivity.
  - split.
    { unfold reader.company_list, company_row_of in Hrow.
      cbn [forallb binds andb] in Hrow.
      injection Hrow as <-. reflexivity. }
    split; [apply has_char_last_after_other, has_char_last_after|].
    split; [apply has_char_last_after|].
    destruct (read_company_detail_run pages url f
                (without_company (reader.c_code f) t ++ [new])
                Hpage Hnul Hquote)
      as (new' & Hrow' & _ & Hrun').
    rewrite Hrow in Hrow'. injection Hrow' as <-.
    rewrite Hrun'. f_equal.
    unfold without_company at 1. rewrite filter_app.
    fold (without_company (reader.c_code f) (without_company (reader.c_code f) t)).
    rewrite without_company_again. cbn [filter]. rewrite Hnew. cbn [negb].
    rewrite app_nil_r. reflexivity.
Qed.

Lemma last_default (l : list string) (d d' : string) :
  l <> [] -> last l d = last l d'.
Proof.
  induction l as [|a l IH]; [contradiction|]. intros _.
  destruct l as [|b l]; [reflexivity|].
  change (last (b :: l) d = last (b :: l) d'). apply IH. discriminate.
Qed.

Lemma last_of_cons (cells : list string) (cell d : string) :
  last (cell :: cells) d = last cells cell.
Proof.
  destruct cells as [|c cells]; [reflexivity|].
  change (last (c :: cells) d = last (c :: cells) cell).
  apply last_default. discriminate.
Qed.

Lemma last_cons (cell : string) (cells : list string) :
  last cells cell = url_of (cell :: cells).
Proof. unfold url_of. symmetry. apply last_of_cons. Qed.

(** The rows of a code after [read_company_detail] has stored a
    company. *)
Lemma companies_of_detail
  (code : string) (f : reader.company_fields) (new : KAP_COMPANIES.row)
  (t : KAP_COMPANIES.table) :
  KAP_COMPANIES.CODE new = Some (reader.c_code f) ->
  (code = reader.c_code f
   /\ companies_of code (without_company (reader.c_code f) t ++ [new]) = [new])
  \/ (code <> reader.c_code f
      /\ companies_of code (without_company (reader.c_code f) t ++ [new])
         = companies_of code t).
Proof.
  intro Hcode. rewrite companies_of_app.
  assert (Hnew : code_is (reader.c_code f) new = true).
  { unfold code_is. rewrite Hcode. apply String.eqb_refl. }
  destruct (String.eqb_spec code (reader.c_code f)) as [->|Hne].
  - left. split; [reflexivity|]. rewrite companies_of_without.
    unfold companies_of. cbn [filter app]. rewrite Hnew. reflexivity.
  - right. split; [exact Hne|].
    rewrite companies_of_without_other by (intro E; apply Hne; symmetry; exact E).
    unfold companies_of at 2. cbn [filter].
    rewrite (code_is_other (reader.c_code f) code new) by
      (first [exact Hnew | intro E; apply Hne; symmetry; exact E]).
    apply app_nil_r.
Qed.

(** The loop of [read_companies] over rows whose pages can be read. *)
Lemma read_each_company_run
  (pages : reader.company_site) (compsd : list (list string)) :
  (forall c, In c compsd ->
     c <> []
     /\ exists f, pages (url_of c) = Ret (reader.company_page f)
                  /\ has_char "000" (reader.c_code f) = false
                  /\ has_char "'" (reader.c_code f) = false) ->
  forall t, exists t',
    reader.read_each_company pages compsd t = (Ret tt, t')
    /\ (forall code, stored_once code t -> stored_once code t')
    /\ (forall c f, In c compsd ->
          pages (url_of c) = Ret (reader.company_page f) ->
          stored_once (reader.c_code f) t')
    /\ (forall code,
          (forall c f, In c compsd ->
             pages (url_of c) = Ret (reader.company_page f) ->
             reader.c_code f <> code) ->
          companies_of code t' = companies_of code t).
Proof.
  induction compsd as [|c compsd IH]; intros Hpages t.
  - exists t. split; [reflexivity|]. split; [auto|].
    split; [intros c f []|reflexivity].
  - destruct (Hpages c (or_introl eq_refl))
      as (Hc & f & Hpage & Hnul & Hquote).
    destruct c as [|cell cells]; [contradiction|].
    destruct (read_company_detail_run pages (url_of (cell :: cells)) f t
                Hpage Hnul Hquote) as (new & _ & Hcode & Hrun).
    destruct (IH (fun c' H => Hpages c' (or_intror H))
                (without_company (reader.c_code f) t ++ [new]))
      as (t' & Hloop & Hkeep & Hlisted & Hother).
    exists t'. split; [|split; [|split]].
    + cbn [reader.read_each_company]. rewrite last_cons.
      unfold bind at 1. rewrite Hrun. exact Hloop.
    + intros code Honce. apply Hkeep.
      destruct (companies_of_detail code f new t Hcode) as [[_ E]|[_ E]].
      * exists new. exact E.
      * unfold stored_once. rewrite E. exact Honce.
    + intros c' f' [<-|Hin] Hpage'.
      * rewrite Hpage in Hpage'. injection Hpage' as <-.
        apply Hkeep. exists new.
        destruct (companies_of_detail (reader.c_code f) f new t Hcode)
          as [[_ E]|[Hne _]]; [exact E|contradiction].
      * exact (Hlisted c' f' Hin Hpage').
    + intros code Hnone.
      rewrite (Hother code (fun c' f' H => Hnone c' f' (or_intror H))).
      destruct (companies_of_detail code f new t Hcode) as [[E _]|[_ E]];
        [|exact E].
      exfalso. apply (Hnone (cell :: cells) f (or_introl eq_refl) Hpage).
      symmetry. exact E.
Qed.

(** X16.  Over a list of companies that is not empty, given or read from
    the site, whose pages can all be read and show codes without a NUL
    character or a quote, [read_companies] returns the list; afterwards
    the code of
    every listed company has exactly one row, the one [get_company]
    returns, also where the table held several rows of a code or the
    list names a company twice; the rows of the codes no listed page
    shows are as before. *)
Theorem read_companies_stores_every_company
  (pages : reader.company_site)
  (companies_list : outcome (list (list string)))
  (comps : option (list (list string))) (compsd : list (list string))
  (t : KAP_COMPANIES.table)
  (Hlist : comps = Some compsd
           \/ (comps = None /\ companies_list = Ret compsd))
  (Hsome : compsd <> [])
  (Hpages : forall c, In c compsd ->
     c <> []
     /\ exists f, pages (url_of c) = Ret (reader.company_page f)
                  /\ has_char "000" (reader.c_code f) = false
                  /\ has_char "'" (reader.c_code f) = false) :
  exists t',
    reader.read_companies pages companies_list comps t = (Ret compsd, t')
    /\ (forall c f, In c compsd ->
          pages (url_of c) = Ret (reader.company_page f) ->
          exists r,
            companies_of (reader.c_code f) t' = [r]
            /\ database.get_company (VStr (reader.c_code f)) t'
               = (Ret (Some r), t'))
    /\ (forall code,
          (forall c f, In c compsd ->
             pages (url_of c) = Ret (reader.company_page f) ->
             reader.c_code f <> code) ->
          companies_of code t' = companies_of code t).
Proof.
  destruct (read_each_company_run pages compsd Hpages t)
    as (t' & Hloop & _ & Hlisted & Hother).
  exists t'. split; [|split; [|exact Hother]].
  - unfold reader.read_companies.
    assert (Hfirst :
      (match comps with
       | None => fun t0 : KAP_COMPANIES.table => (companies_list, t0)
       | Some comps0 => ret comps0
       end) t = (Ret compsd, t)).
    { destruct Hlist as [->|[-> ->]]; reflexivity. }
    unfold bind at 1. rewrite Hfirst.
    unfold bind at 1. rewrite Hloop.
    destruct compsd; [contradiction|reflexivity].
  - intros c f Hin Hpage.
    destruct (Hlisted c f Hin Hpage) as [r Hr]. exists r.
    split; [exact Hr|].
    destruct (Hpages c Hin) as (_ & f' & Hpage' & Hnul & Hquote).
    rewrite Hpage in Hpage'. injection Hpage' as <-.
    unfold database.get_company. cbn [py_str]. rewrite Hnul, Hquote.
    fold (companies_of (reader.c_code f) t'). rewrite Hr. reflexivity.
Qed.

(** X17.  [save_company] of a list that does not hold eleven values
    never raises: it returns the failure reply, with the exception of
    the refused statement, or of [company[0]] for the empty list.  No
    row is added: every row of the table afterwards was there before,
    and the empty list leaves the table as it is. *)
Theorem save_company_refuses_other_lengths
  (company : list value) (t : KAP_COMPANIES.table)
  (Hlen : List.length company <> 11%nat)
  (Hquote : has_char "'" (py_str (hd VNone company)) = false) :
  exists ex t',
    database.save_company company t = (Ret (database.company_failed ex), t')
    /\ (forall r, In r t' -> In r t)
    /\ (company = [] -> ex = IndexError /\ t' = t)
    /\ (company <> [] -> ex = ProgrammingError).
Proof.
  destruct company as [|code rest].
  - exists IndexError, t. split; [reflexivity|]. split; [auto|].
    split; [auto|]. intro H. contradiction.
  - cbn [hd] in Hquote.
    destruct (has_char "000" (py_str code)) eqn:Hnul.
    { exists ProgrammingError, t. split; [|split; [auto|split]].
      - unfold database.save_company, try_except, bind,
          database.delete_company.
        rewrite Hnul. reflexivity.
      - discriminate.
      - reflexivity. }
    exists ProgrammingError, (without_company (py_str code) t).
    split; [|split; [|split]].
    + unfold database.save_company, try_except, bind, database.delete_company.
      rewrite Hnul, Hquote. fold (without_company (py_str code) t).
      unfold database.insert_company.
      destruct rest as [|na [|pr [|ur [|ta [|re [|sc [|em [|we [|ad [|se [|? ?]]]]]]]]]]];
        try reflexivity.
      exfalso. apply Hlen. reflexivity.
    + intros r Hr. unfold without_company in Hr.
      apply filter_In in Hr. exact (proj1 Hr).
    + discriminate.
    + reflexivity.
Qed.

End Companies.


Lemma read_company_detail_stores_the_company_witness :
  exists t' new province,
    reader.read_company_detail company_pages "AVOD" [a_company_row "AVOD"]
    = (Ret (reader.company_list
              (reader.mkcompany "AVOD GIDA" "AVOD" "1234567890" "98765" "Gida"
                 "info@avod.com.tr" "www.avod.com.tr"
                 "Ataturk Mah. No 5 Menemen/ IZMIR" None) "AVOD"), t')
    /\ company_row_of
         (reader.company_list
            (reader.mkcompany "AVOD GIDA" "AVOD" "1234567890" "98765" "Gida"
               "info@avod.com.tr" "www.avod.com.tr"
               "Ataturk Mah. No 5 Menemen/ IZMIR" None) "AVOD") = Some new
    /\ database.get_company
         (VStr (reader.c_code
                  (reader.mkcompany "AVOD GIDA" "AVOD" "1234567890" "98765"
                     "Gida" "info@avod.com.tr" "www.avod.com.tr"
                     "Ataturk Mah. No 5 Menemen/ IZMIR" None))) t'
       = (Ret (Some new), t')
    /\ companies_of
         (reader.c_code
            (reader.mkcompany "AVOD GIDA" "AVOD" "1234567890" "98765" "Gida"
               "info@avod.com.tr" "www.avod.com.tr"
               "Ataturk Mah. No 5 Menemen/ IZMIR" None)) t' = [new]
    /\ KAP_COMPANIES.PROVINCE new = Some province
    /\ has_char "/" province = false
    /\ has_char " " province = false
    /\ reader.read_company_detail company_pages "AVOD" t'
       = (Ret (reader.company_list
                 (reader.mkcompany "AVOD GIDA" "AVOD" "1234567890" "98765"
                    "Gida" "info@avod.com.tr" "www.avod.com.tr"
                    "Ataturk Mah. No 5 Menemen/ IZMIR" None) "AVOD"), t').
Proof.
  apply (read_company_detail_stores_the_company company_pages "AVOD"
           (reader.mkcompany "AVOD GIDA" "AVOD" "1234567890" "98765" "Gida"
              "info@avod.com.tr" "www.avod.com.tr"
              "Ataturk Mah. No 5 Menemen/ IZMIR" None)
           [a_company_row "AVOD"]); reflexivity.
Defined.

(** The province of the witness page. *)
Example province_of_the_witness :
  last_after " " (last_after "/" "Ataturk Mah. No 5 Menemen/ IZMIR") = "IZMIR".
Proof. reflexivity. Qed.

(** A page whose code holds a NUL character: the delete is refused,
    [read_company_detail] ends with its exception and stores nothing. *)
Example code_with_NUL_is_refused :
  reader.read_company_detail company_pages (String "000" "AVOD")
    [a_company_row "AVOD"]
  = (Raise ProgrammingError, [a_company_row "AVOD"]).
Proof. reflexivity. Qed.

Lemma read_companies_stores_every_company_witness :
  exists t',
    reader.read_companies company_pages (Ret two_companies) None [a_company_row "AVOD"; a_company_row "AVOD"]
    = (Ret two_companies, t')
    /\ (forall c f, In c two_companies ->
          company_pages (url_of c) = Ret (reader.company_page f) ->
          exists r,
            companies_of (reader.c_code f) t' = [r]
            /\ database.get_company (VStr (reader.c_code f)) t'
               = (Ret (Some r), t'))
    /\ (forall code,
          (forall c f, In c two_companies ->
             company_pages (url_of c) = Ret (reader.company_page f) ->
             reader.c_code f <> code) ->
          companies_of code t'
          = companies_of code [a_company_row "AVOD"; a_company_row "AVOD"]).
Proof.
  apply (read_companies_stores_every_company company_pages
           (Ret two_companies) None two_companies
           [a_company_row "AVOD"; a_company_row "AVOD"]).
  - right. split; reflexivity.
  - discriminate.
  - intros c [<-|[<-|[]]]; (split; [discriminate|]);
      eexists; (split; [reflexivity|split; reflexivity]).
Defined.

Lemma save_company_refuses_other_lengths_witness :
  exists ex t',
    database.save_company [VStr "AVOD"; VStr "AVOD GIDA"]
      [a_company_row "AVOD"; a_company_row "BIMAS"]
    = (Ret (database.company_failed ex), t')
    /\ (forall r, In r t' ->
          In r [a_company_row "AVOD"; a_company_row "BIMAS"])
    /\ ([VStr "AVOD"; VStr "AVOD GIDA"] = [] -> ex = IndexError
          /\ t' = [a_company_row "AVOD"; a_company_row "BIMAS"])
    /\ ([VStr "AVOD"; VStr "AVOD GIDA"] <> [] -> ex = ProgrammingError).
Proof.
  apply (save_company_refuses_other_lengths [VStr "AVOD"; VStr "AVOD GIDA"]
           [a_company_row "AVOD"; a_company_row "BIMAS"]).
  - cbn. lia.
  - reflexivity.
Defined.
